(** * fritzbox-wol: the router client, its configuration loader and the CLI

    A shallow embedding of [client.py], [config.py] and [wakeup.py].

    - A Python [str] is a list of Unicode code points ([N]); the UTF-16
      encoder and MD5 work on bytes kept as [N] below 256.
    - Python values that reach the program through [json] are the
      inductive [value]; a dict is an association list in insertion order.
    - Exceptions are the [exn] type, a computation that may raise is a
      [result], and code that talks to the router or the terminal is a
      state-and-error monad over a trace of events.
    - Everything that lives outside the repository and is too large to
      write down (the router, the terminal, standard output, the file
      system, the non-ASCII part of Unicode case mapping, PEP 440 beyond
      plain release numbers, [repr] of floats and containers) is a field
      of the record [Env]; theorems hold for every environment. *)

From Stdlib Require Import List NArith ZArith Bool Lia String Ascii DecimalString.
Import ListNotations.

Local Open Scope N_scope.
Set Warnings "-register-all".

(** ** Python strings *)

Definition str := list N.

Definition py (s : string) : str :=
  map (fun a => N_of_ascii a) (list_ascii_of_string s).

Fixpoint str_eqb (a b : str) : bool :=
  match a, b with
  | [], [] => true
  | x :: a', y :: b' => (x =? y) && str_eqb a' b'
  | _, _ => false
  end.

(** [s.startswith(p)] *)
Fixpoint startswith (s p : str) : bool :=
  match p, s with
  | [], _ => true
  | y :: p', x :: s' => (x =? y) && startswith s' p'
  | _ :: _, [] => false
  end.

(** [p in s] for two strings *)
Fixpoint str_contains (s p : str) : bool :=
  startswith s p ||
  match s with
  | [] => false
  | _ :: s' => str_contains s' p
  end.

(** [sep.join(parts)] *)
Fixpoint join (sep : str) (parts : list str) : str :=
  match parts with
  | [] => []
  | [p] => p
  | p :: rest => p ++ sep ++ join sep rest
  end.

(** ** Exceptions and results *)

Inductive exn :=
| FileNotFoundError (msg : str)
| ValueError (msg : str)
| PermissionError (msg : str)
| ConnectionError (msg : str)
| LookupError (msg : str)
| RuntimeError (msg : str)
| KeyError (key : str)
| IndexError
| TypeError
| AttributeError
| JSONDecodeError (msg : str)
| XMLSyntaxError
| UnicodeEncodeError
| InvalidVersion
| SSLError
| KeyboardInterrupt
| OtherException (name : str)
| OtherBaseException (name : str).

Inductive result (A : Type) :=
| Ok (a : A)
| Raise (e : exn).
Arguments Ok {A} a.
Arguments Raise {A} e.

Definition rbind {A B} (r : result A) (k : A -> result B) : result B :=
  match r with
  | Ok a => k a
  | Raise e => Raise e
  end.

(** ** [str.encode('utf-16-le')] *)

Module Utf16.

Definition is_surrogate (c : N) : bool := (0xD800 <=? c) && (c <=? 0xDFFF).

(** A code point the codec accepts: a Unicode scalar value. *)
Definition scalar (c : N) : bool := negb (is_surrogate c) && (c <? 0x110000).

Definition le16 (u : N) : list N := [u mod 256; u / 256].

Definition encode_char (c : N) : option (list N) :=
  if is_surrogate c then None
  else if c <? 0x10000 then Some (le16 c)
  else if c <? 0x110000 then
    let v := c - 0x10000 in
    Some (le16 (0xD800 + v / 1024) ++ le16 (0xDC00 + v mod 1024))
  else None.

Fixpoint encode (s : str) : option (list N) :=
  match s with
  | [] => Some []
  | c :: s' =>
      match encode_char c, encode s' with
      | Some b, Some bs => Some (b ++ bs)
      | _, _ => None
      end
  end.

End Utf16.

(** ** [hashlib.md5(...).hexdigest()], after RFC 1321 *)

Module MD5.

Definition w32 (x : N) : N := x mod 0x100000000.
Definition add32 (x y : N) : N := w32 (x + y).
Definition not32 (x : N) : N := N.lxor (w32 x) 0xFFFFFFFF.
Definition rotl32 (x n : N) : N :=
  N.lor (w32 (N.shiftl (w32 x) n)) (N.shiftr (w32 x) (32 - n)).

Definition shifts : list N :=
  [7; 12; 17; 22; 7; 12; 17; 22; 7; 12; 17; 22; 7; 12; 17; 22;
   5; 9; 14; 20; 5; 9; 14; 20; 5; 9; 14; 20; 5; 9; 14; 20;
   4; 11; 16; 23; 4; 11; 16; 23; 4; 11; 16; 23; 4; 11; 16; 23;
   6; 10; 15; 21; 6; 10; 15; 21; 6; 10; 15; 21; 6; 10; 15; 21].

(** [floor(2^32 * abs(sin(i + 1)))] *)
Definition sines : list N :=
  [0xd76aa478; 0xe8c7b756; 0x242070db; 0xc1bdceee;
   0xf57c0faf; 0x4787c62a; 0xa8304613; 0xfd469501;
   0x698098d8; 0x8b44f7af; 0xffff5bb1; 0x895cd7be;
   0x6b901122; 0xfd987193; 0xa679438e; 0x49b40821;
   0xf61e2562; 0xc040b340; 0x265e5a51; 0xe9b6c7aa;
   0xd62f105d; 0x02441453; 0xd8a1e681; 0xe7d3fbc8;
   0x21e1cde6; 0xc33707d6; 0xf4d50d87; 0x455a14ed;
   0xa9e3e905; 0xfcefa3f8; 0x676f02d9; 0x8d2a4c8a;
   0xfffa3942; 0x8771f681; 0x6d9d6122; 0xfde5380c;
   0xa4beea44; 0x4bdecfa9; 0xf6bb4b60; 0xbebfbc70;
   0x289b7ec6; 0xeaa127fa; 0xd4ef3085; 0x04881d05;
   0xd9d4d039; 0xe6db99e5; 0x1fa27cf8; 0xc4ac5665;
   0xf4292244; 0x432aff97; 0xab9423a7; 0xfc93a039;
   0x655b59c3; 0x8f0ccc92; 0xffeff47d; 0x85845dd1;
   0x6fa87e4f; 0xfe2ce6e0; 0xa3014314; 0x4e0811a1;
   0xf7537e82; 0xbd3af235; 0x2ad7d2bb; 0xeb86d391].

Record regs := Regs { rA : N; rB : N; rC : N; rD : N }.

Definition init : regs :=
  Regs 0x67452301 0xefcdab89 0x98badcfe 0x10325476.

(** The auxiliary function and the message index of step [i]. *)
Definition mix (i b c d : N) : N * N :=
  if i <? 16 then (N.lor (N.land b c) (N.land (not32 b) d), i)
  else if i <? 32 then
    (N.lor (N.land d b) (N.land (not32 d) c), (5 * i + 1) mod 16)
  else if i <? 48 then (N.lxor (N.lxor b c) d, (3 * i + 5) mod 16)
  else (N.lxor c (N.lor b (not32 d)), (7 * i) mod 16).

Definition step (m : list N) (r : regs) (i : N) : regs :=
  let '(f, g) := mix i (rB r) (rC r) (rD r) in
  let k := nth (N.to_nat i) sines 0 in
  let s := nth (N.to_nat i) shifts 0 in
  let x := add32 (add32 (add32 f (rA r)) k) (nth (N.to_nat g) m 0) in
  Regs (rD r) (add32 (rB r) (rotl32 x s)) (rB r) (rC r).

Definition steps : list N := map N.of_nat (seq 0 64).

(** Little-endian 32-bit words of a byte list. *)
Fixpoint words (fuel : nat) (bs : list N) : list N :=
  match fuel, bs with
  | S fuel', b0 :: b1 :: b2 :: b3 :: rest =>
      (b0 + 256 * b1 + 65536 * b2 + 16777216 * b3) :: words fuel' rest
  | _, _ => []
  end.

Definition block (r : regs) (chunk : list N) : regs :=
  let m := words 16 chunk in
  let r' := fold_left (step m) steps r in
  Regs (add32 (rA r) (rA r')) (add32 (rB r) (rB r'))
       (add32 (rC r) (rC r')) (add32 (rD r) (rD r')).

Fixpoint le_bytes (n : nat) (x : N) : list N :=
  match n with
  | O => []
  | S n' => x mod 256 :: le_bytes n' (x / 256)
  end.

(** Padding: one [0x80], zeros up to 56 modulo 64, the bit length on
    eight little-endian bytes. *)
Definition pad (msg : list N) : list N :=
  let len := N.of_nat (List.length msg) in
  let zeros := (119 - len mod 64) mod 64 in
  msg ++ [0x80] ++ repeat 0 (N.to_nat zeros) ++ le_bytes 8 (8 * len).

Fixpoint blocks (fuel : nat) (r : regs) (bs : list N) : regs :=
  match fuel, bs with
  | S fuel', _ :: _ => blocks fuel' (block r (firstn 64 bs)) (skipn 64 bs)
  | _, _ => r
  end.

Definition digest (msg : list N) : list N :=
  let p := pad msg in
  let r := blocks (List.length p) init p in
  le_bytes 4 (rA r) ++ le_bytes 4 (rB r) ++ le_bytes 4 (rC r)
    ++ le_bytes 4 (rD r).

Definition hexdigit (n : N) : N :=
  if n <? 10 then 48 + n else 87 + n.

Definition hex (bs : list N) : str :=
  flat_map (fun b => [hexdigit ((b / 16) mod 16); hexdigit (b mod 16)]) bs.

Definition hexdigest (msg : list N) : str := hex (digest msg).

End MD5.


(** ** Python values

    What [json.load] and [response.json()] produce.  A float is kept as
    its binary64 bit pattern: the program only ever asks whether it is
    zero.  A dict keeps its items in insertion order, keys unique. *)

Inductive value :=
| VNone
| VBool (b : bool)
| VInt (z : Z)
| VFloat (bits : N)
| VStr (s : str)
| VList (items : list value)
| VDict (items : list (str * value)).

Fixpoint lookup (k : str) (items : list (str * value)) : option value :=
  match items with
  | [] => None
  | (k', v) :: rest => if str_eqb k' k then Some v else lookup k rest
  end.

(** [d[k] = v] on a dict: overwrite in place, or append. *)
Fixpoint update (k : str) (v : value) (items : list (str * value))
  : list (str * value) :=
  match items with
  | [] => [(k, v)]
  | (k', v') :: rest =>
      if str_eqb k' k then (k, v) :: rest else (k', v') :: update k v rest
  end.

(** [bool(v)] *)
Definition truthy (v : value) : bool :=
  match v with
  | VNone => false
  | VBool b => b
  | VInt z => negb (z =? 0)%Z
  | VFloat bits => negb (bits mod 0x8000000000000000 =? 0)
  | VStr s => match s with [] => false | _ => true end
  | VList l => match l with [] => false | _ => true end
  | VDict d => match d with [] => false | _ => true end
  end.

(** [v[k]] with a string subscript *)
Definition getitem (v : value) (k : str) : result value :=
  match v with
  | VDict items =>
      match lookup k items with
      | Some x => Ok x
      | None => Raise (KeyError k)
      end
  | _ => Raise TypeError
  end.

(** [v[k] = x] with a string subscript *)
Definition setitem (v : value) (k : str) (x : value) : result value :=
  match v with
  | VDict items => Ok (VDict (update k x items))
  | _ => Raise TypeError
  end.

(** [v.get(k, default)] *)
Definition get (v : value) (k : str) (default : value) : result value :=
  match v with
  | VDict items =>
      match lookup k items with
      | Some x => Ok x
      | None => Ok default
      end
  | _ => Raise AttributeError
  end.

(** [v.keys()] *)
Definition keys (v : value) : result (list str) :=
  match v with
  | VDict items => Ok (map fst items)
  | _ => Raise AttributeError
  end.

(** [v == s] for a string [s] held on one side; any other pair of
    values is compared by the environment (see [Env]). *)
Definition eq_str (v : value) (s : str) : bool :=
  match v with
  | VStr s' => str_eqb s' s
  | _ => false
  end.

(** [k in v] for a string [k] *)
Definition contains (v : value) (k : str) : result bool :=
  match v with
  | VDict items =>
      Ok (match lookup k items with Some _ => true | None => false end)
  | VList l => Ok (existsb (fun x => eq_str x k) l)
  | VStr s => Ok (str_contains s k)
  | _ => Raise TypeError
  end.

(** [for x in v]: the items the loop visits *)
Definition iterate (v : value) : result (list value) :=
  match v with
  | VList l => Ok l
  | VDict items => Ok (map (fun kv => VStr (fst kv)) items)
  | VStr s => Ok (map (fun c => VStr [c]) s)
  | _ => Raise TypeError
  end.

(** [str.isspace] for one code point *)
Definition is_space (c : N) : bool :=
  ((9 <=? c) && (c <=? 13)) || ((0x1c <=? c) && (c <=? 0x20))
  || (c =? 0x85) || (c =? 0xa0) || (c =? 0x1680)
  || ((0x2000 <=? c) && (c <=? 0x200a))
  || (c =? 0x2028) || (c =? 0x2029) || (c =? 0x202f) || (c =? 0x205f)
  || (c =? 0x3000).

(** [s.split()]: [cur] is the token being read, reversed. *)
Fixpoint split_from (cur : str) (s : str) : list str :=
  match s with
  | [] => match cur with [] => [] | _ => [rev cur] end
  | c :: s' =>
      if is_space c then
        match cur with
        | [] => split_from [] s'
        | _ => rev cur :: split_from [] s'
        end
      else split_from (c :: cur) s'
  end.

Definition split (s : str) : list str := split_from [] s.

(** [v.split()] *)
Definition split_method (v : value) : result (list str) :=
  match v with
  | VStr s => Ok (split s)
  | _ => Raise AttributeError
  end.

(** [l[0]] *)
Definition first {A} (l : list A) : result A :=
  match l with
  | x :: _ => Ok x
  | [] => Raise IndexError
  end.

(** [str(z)] for an int *)
Definition str_of_int (z : Z) : str :=
  py (DecimalString.NilZero.string_of_int (Z.to_int z)).

(** ** XML documents and [tree.xpath('//T/text()')] *)

Inductive node :=
| Text (s : str)
| Element (tag : str) (children : list node).

(** The text nodes whose parent is an element named [t], in document
    order. *)
Fixpoint xpath_text (t : str) (n : node) : list str :=
  match n with
  | Text _ => []
  | Element tag children =>
      flat_map
        (fun c =>
           match c with
           | Text s => if str_eqb tag t then [s] else []
           | Element _ _ => xpath_text t c
           end)
        children
  end.

(** ** [packaging.version] on plain release numbers *)

Module Version.

Definition is_digit (c : N) : bool := (48 <=? c) && (c <=? 57).

Fixpoint digits_value (acc : N) (s : str) : option N :=
  match s with
  | [] => Some acc
  | c :: s' =>
      if is_digit c then digits_value (10 * acc + (c - 48)) s' else None
  end.

(** [int(seg)] for a segment matching [[0-9]+].  Beyond 4300 digits
    the interpreter may refuse the conversion, so longer segments are
    left out of the fragment. *)
Definition segment (s : str) : option N :=
  match s with
  | [] => None
  | _ => if (List.length s <=? 4300)%nat then digits_value 0 s else None
  end.

(** [s.split(".")]: [cur] is the piece being read, reversed. *)
Fixpoint split_dots (cur : str) (s : str) : list str :=
  match s with
  | [] => [rev cur]
  | c :: s' =>
      if c =? 46 then rev cur :: split_dots [] s'
      else split_dots (c :: cur) s'
  end.

Fixpoint all_some {A} (l : list (option A)) : option (list A) :=
  match l with
  | [] => Some []
  | Some x :: l' =>
      match all_some l' with
      | Some xs => Some (x :: xs)
      | None => None
      end
  | None :: _ => None
  end.

(** The release tuple of a string of the form [N(.N)*]; [None] for
    every other string. *)
Definition parse_release (s : str) : option (list N) :=
  all_some (map segment (split_dots [] s)).

Fixpoint dropwhile_zero (l : list N) : list N :=
  match l with
  | [] => []
  | x :: l' => if x =? 0 then dropwhile_zero l' else l
  end.

(** [_cmpkey]: trailing zeros of the release are dropped; the other
    components of the key are the same constants for every release-only
    version. *)
Definition cmpkey (release : list N) : list N :=
  rev (dropwhile_zero (rev release)).

(** [a <= b] on tuples of ints *)
Fixpoint tuple_le (a b : list N) : bool :=
  match a, b with
  | [], _ => true
  | _ :: _, [] => false
  | x :: a', y :: b' =>
      if x <? y then true
      else if y <? x then false
      else tuple_le a' b'
  end.

(** Dotted-numeric precedence as the specification words it: segment
    by segment as integers, a missing segment counting as zero. *)
Fixpoint dotted_cmp (a b : list N) : comparison :=
  match a, b with
  | [], _ => if forallb (fun y => y =? 0) b then Eq else Lt
  | _, [] => if forallb (fun x => x =? 0) a then Eq else Gt
  | x :: a', y :: b' =>
      match x ?= y with
      | Eq => dotted_cmp a' b'
      | c => c
      end
  end.

Definition dotted_le (a b : list N) : bool :=
  match dotted_cmp a b with
  | Gt => false
  | _ => true
  end.

End Version.

(** ** The environment *)

Inductive verb := GET | POST.

(** One call of [requests.get] or [requests.post]: the URL and the
    keyword arguments [data] and [verify]. *)
Record request := Request {
  req_verb : verb;
  req_url : str;
  req_data : option (list (str * value));
  req_verify : value
}.

(** A [requests.Response] as the client reads it: the [content-type]
    header if any, the decoded body, and what [etree.XML] and [.json()]
    make of the body ([None] when it does not parse). *)
Record response := Response {
  content_type : option str;
  text : str;
  xml : option node;
  json : option value
}.

(** What [open] and [json.load] find at a path. *)
Inductive file_state :=
| Absent
| Unreadable (e : exn)
| Malformed (msg : str)
| Parsed (v : value).

Record Env := {
  World : Type;
  (** the network: the router answers, or the transport raises *)
  http : request -> World -> result response * World;
  (** [getpass.getpass(prompt)] *)
  getpass : str -> World -> result str * World;
  (** the file system *)
  file_at : str -> World -> file_state;
  (** [print(line)] to standard output: the exception it raises, if it
      raises one (the stream cannot encode the line, the pipe is closed) *)
  stdout : str -> World -> option exn;
  (** [str.lower] on a string that has a non-ASCII code point *)
  lower_nonascii : str -> str;
  (** [str(v)] for floats, lists and dicts *)
  repr_other : value -> str;
  (** [a == b] when neither side is a string *)
  eq_other : value -> value -> bool;
  (** [version.parse(a) <= version.parse(b)] when one side is not a
      plain release number: a boolean or [InvalidVersion] *)
  version_le_other : str -> str -> result bool
}.

Inductive event :=
| Http (q : request)
| Prompt (prompt : str).

Record state (env : Env) := State {
  world : World env;
  trace : list event
}.
Arguments State {env} world trace.
Arguments world {env} s.
Arguments trace {env} s.

Section Program.

Variable env : Env.

(** *** The monad of the client code *)

Definition M (A : Type) : Type := state env -> result A * state env.

Definition ret {A} (a : A) : M A := fun st => (Ok a, st).

Definition raise {A} (e : exn) : M A := fun st => (Raise e, st).

Definition bind {A B} (m : M A) (k : A -> M B) : M B :=
  fun st =>
    match m st with
    | (Ok a, st') => k a st'
    | (Raise e, st') => (Raise e, st')
    end.

Definition lift {A} (r : result A) : M A := fun st => (r, st).

Notation "x <- m ;; k" := (bind m (fun x => k))
  (at level 61, m at next level, right associativity).

Notation "x <~ r ;; k" := (rbind r (fun x => k))
  (at level 61, r at next level, right associativity).

(** [try: body except (KeyError, IndexError): handler] *)
Definition except_key_index {A} (body handler : M A) : M A :=
  fun st =>
    match body st with
    | (Raise (KeyError _), st') => handler st'
    | (Raise IndexError, st') => handler st'
    | other => other
    end.

(** *** Built-ins that need the environment *)

Definition is_ascii (s : str) : bool := forallb (fun c => c <? 128) s.

(** [s.lower()] *)
Definition lower (s : str) : str :=
  if is_ascii s then
    map (fun c => if (65 <=? c) && (c <=? 90) then c + 32 else c) s
  else lower_nonascii env s.

(** [f"{v}"] *)
Definition format (v : value) : str :=
  match v with
  | VStr s => s
  | VInt z => str_of_int z
  | VNone => py "None"
  | VBool true => py "True"
  | VBool false => py "False"
  | _ => repr_other env v
  end.

(** [a == b] *)
Definition py_eq (a b : value) : bool :=
  match a, b with
  | VStr x, VStr y => str_eqb x y
  | VStr _, _ => false
  | _, VStr _ => false
  | _, _ => eq_other env a b
  end.

(** [version.parse(a) <= version.parse(b)] *)
Definition version_le (a b : str) : result bool :=
  match Version.parse_release a, Version.parse_release b with
  | Some x, Some y =>
      Ok (Version.tuple_le (Version.cmpkey x) (Version.cmpkey y))
  | _, _ => version_le_other env a b
  end.

(** *** client.py *)

Definition SID_NOAUTH : str := py "0000000000000000".

Record FritzBoxClient := Client {
  config : value;
  host : value;
  port : value;
  username : value;
  verify_ssl : value;
  url_login : str;
  url_data : str
}.

Definition __init__ (config : value) : result FritzBoxClient :=
  host <~ getitem config (py "host") ;;
  port <~ getitem config (py "port") ;;
  username <~ getitem config (py "username") ;;
  verify_ssl <~ get config (py "verify_ssl") (VBool true) ;;
  Ok {| config := config; host := host; port := port;
        username := username; verify_ssl := verify_ssl;
        url_login := py "https://" ++ format host ++ py ":" ++ format port
                       ++ py "/login_sid.lua";
        url_data := py "https://" ++ format host ++ py ":" ++ format port
                      ++ py "/data.lua" |}.

Definition ssl_message : str :=
  py "SSL certificate verification failed. Use --ssl-no-verify flag to bypass (not recommended)".

(** [requests.get(url, **kwargs)] or [requests.post(url, **kwargs)]
    inside the [try]: the call is recorded, and [SSLError] is turned
    into [ConnectionError]. *)
Definition send (v : verb) (url : str) (data : option (list (str * value)))
  (verify : value) : M (option response) :=
  fun st =>
    let q := Request v url data verify in
    let '(r, w') := http env q (world st) in
    let st' := State w' (trace st ++ [Http q]) in
    match r with
    | Ok resp => (Ok (Some resp), st')
    | Raise SSLError => (Raise (ConnectionError ssl_message), st')
    | Raise e => (Raise e, st')
    end.

(** Falls off the end, returning [None], when the method is neither. *)
Definition _make_request (method : str) (url : str)
  (data : option (list (str * value))) (verify : value)
  : M (option response) :=
  if str_eqb (lower method) (py "get") then send GET url data verify
  else if str_eqb (lower method) (py "post") then send POST url data verify
  else ret None.

(** Attribute access on what [_make_request] returned. *)
Definition attr {A} (r : option response) (f : response -> A) : result A :=
  match r with
  | Some resp => Ok (f resp)
  | None => Raise AttributeError
  end.

(** [etree.XML(response.content)] *)
Definition etree_XML (r : option response) : result node :=
  x <~ attr r xml ;;
  match x with
  | Some tree => Ok tree
  | None => Raise XMLSyntaxError
  end.

(** [response.json()] *)
Definition response_json (r : option response) : result value :=
  j <~ attr r json ;;
  match j with
  | Some v => Ok v
  | None => Raise (JSONDecodeError [])
  end.

Definition _get_challenge (self : FritzBoxClient) : M str :=
  response <- _make_request (py "get") (url_login self) None
                (verify_ssl self) ;;
  lift (tree <~ etree_XML response ;;
        first (xpath_text (py "Challenge") tree)).

Definition _calculate_response (challenge : str) (password : value)
  : result str :=
  let challenge_pwd := challenge ++ py "-" ++ format password in
  match Utf16.encode challenge_pwd with
  | Some bytes =>
      let hash_value := MD5.hexdigest bytes in
      Ok (challenge ++ py "-" ++ hash_value)
  | None => Raise UnicodeEncodeError
  end.

Definition auth_failed : str :=
  py "Authentication failed. Please check username and password.".

(** [authenticate] up to and including the login request: the
    password is settled, the challenge fetched and answered. *)
Definition login_exchange (self : FritzBoxClient) (password : option value)
  : M (option response) :=
  password <-
    match password with
    | Some p => ret p
    | None =>
        configured <- lift (get (config self) (py "password") VNone) ;;
        if truthy configured then ret configured
        else (fun st =>
                let '(r, w') := getpass env (py "Password: ") (world st) in
                (p <~ r ;; Ok (VStr p),
                 State w' (trace st ++ [Prompt (py "Password: ")])))
    end ;;
  challenge <- _get_challenge self ;;
  response <- lift (_calculate_response challenge password) ;;
  let auth_url := url_login self ++ py "?username=" ++ format (username self)
                    ++ py "&response=" ++ response in
  _make_request (py "get") auth_url None (verify_ssl self).

(** The [SID] element of the login response. *)
Definition extract_sid (r : option response) : result str :=
  tree <~ etree_XML r ;;
  first (xpath_text (py "SID") tree).

Definition authenticate (self : FritzBoxClient) (password : option value)
  : M str :=
  r <- login_exchange self password ;;
  sid <- lift (extract_sid r) ;;
  if str_eqb sid SID_NOAUTH then raise (PermissionError auth_failed)
  else ret sid.

(** The inner loop of [get_device_uid]: [Some uid] is the [return],
    [None] is the loop running out. *)
Fixpoint scan_devices (mac_address : value) (devices : list value)
  : result (option value) :=
  match devices with
  | [] => Ok None
  | device :: rest =>
      mac <~ getitem device (py "mac") ;;
      if py_eq mac mac_address then
        uid <~ getitem device (py "UID") ;; Ok (Some uid)
      else scan_devices mac_address rest
  end.

(** The outer loop. *)
Fixpoint scan_lists (mac_address : value) (lists : list value)
  : result (option value) :=
  match lists with
  | [] => Ok None
  | device_list :: rest =>
      devices <~ iterate device_list ;;
      found <~ scan_devices mac_address devices ;;
      match found with
      | Some uid => Ok (Some uid)
      | None => scan_lists mac_address rest
      end
  end.

Definition netdev_payload (sid : str) : list (str * value) :=
  [(py "sid", VStr sid); (py "page", VStr (py "netDev"));
   (py "xhrId", VStr (py "all"))].

Definition get_device_uid (self : FritzBoxClient) (sid : str)
  (mac_address : value) : M value :=
  let payload := netdev_payload sid in
  response <- _make_request (py "post") (url_data self) (Some payload)
                (verify_ssl self) ;;
  lift (data <~ response_json response ;;
        d <~ getitem data (py "data") ;;
        passive <~ getitem d (py "passive") ;;
        d' <~ getitem data (py "data") ;;
        active <~ getitem d' (py "active") ;;
        found <~ scan_lists mac_address [passive; active] ;;
        match found with
        | Some uid => Ok uid
        | None =>
            Raise (LookupError (py "Device with MAC address "
                                  ++ format mac_address
                                  ++ py " not found in FritzBox"))
        end).

(** [data['data']['fritzos']['nspver']] *)
Definition nspver_field (data : value) : result value :=
  d <~ getitem data (py "data") ;;
  fritzos <~ getitem d (py "fritzos") ;;
  getitem fritzos (py "nspver").

Definition overview_payload (sid : str) : list (str * value) :=
  [(py "sid", VStr sid); (py "page", VStr (py "overview"))].

Definition get_firmware_version (self : FritzBoxClient) (sid : str)
  : M str :=
  except_key_index
    (let payload := overview_payload sid in
     response <- _make_request (py "post") (url_data self) (Some payload)
                   (verify_ssl self) ;;
     lift (data <~ response_json response ;;
           nspver <~ nspver_field data ;;
           tokens <~ split_method nspver ;;
           first tokens))
    (ret (py "0.0")).

(** The literal ["pid":"netDev"], quotes included. *)
Definition pid_netDev : str :=
  [34] ++ py "pid" ++ [34; 58; 34] ++ py "netDev" ++ [34].

(** The success test of [send_wakeup] on the response to the wake
    request. *)
Definition wake_success (response : option response) : result bool :=
  headers_content_type <~ attr response content_type ;;
  let content_type :=
    match headers_content_type with Some c => c | None => [] end in
  if startswith content_type (py "application/json") then
    data <~ response_json response ;;
    d <~ get data (py "data") (VDict []) ;;
    btn <~ get d (py "btn_wake") VNone ;;
    Ok (eq_str btn (py "ok"))
  else
    body <~ attr response text ;;
    Ok (str_contains body pid_netDev).

Definition wake_failed : str := py "Failed to send wake-up packet".

Definition wake_payload (sid : str) (uid : value) (page : str)
  : list (str * value) :=
  [(py "sid", VStr sid); (py "dev", uid);
   (py "oldpage", VStr (py "net/edit_device.lua"));
   (py "page", VStr page); (py "btn_wake", VStr [])].

Definition send_wakeup (self : FritzBoxClient) (sid : str) (uid : value)
  : M bool :=
  let page := py "edit_device" in
  fw_version <- get_firmware_version self sid ;;
  older <- lift (version_le fw_version (py "7.24")) ;;
  let page := if older then page ++ py "2" else page in
  let payload := wake_payload sid uid page in
  response <- _make_request (py "post") (url_data self) (Some payload)
                (verify_ssl self) ;;
  success <- lift (wake_success response) ;;
  if negb success then raise (RuntimeError wake_failed) else ret true.

(** *** config.py *)

Definition required_fields : list str :=
  [py "host"; py "port"; py "username"; py "devices"].

(** [[field for field in fields if field not in config]] *)
Fixpoint missing_fields (config : value) (fields : list str)
  : result (list str) :=
  match fields with
  | [] => Ok []
  | field :: rest =>
      present <~ contains config field ;;
      more <~ missing_fields config rest ;;
      Ok (if present then more else field :: more)
  end.

Definition load_config (config_path : str) : M value :=
  fun st =>
    (match file_at env config_path (world st) with
     | Absent =>
         Raise (FileNotFoundError (py "Config file not found: " ++ config_path))
     | Unreadable e => Raise e
     | Malformed e =>
         Raise (ValueError (py "Invalid JSON in config file: " ++ e))
     | Parsed config =>
         missing <~ missing_fields config required_fields ;;
         match missing with
         | [] => Ok config
         | _ =>
             Raise (ValueError (py "Missing required fields: "
                                  ++ join (py ", ") missing))
         end
     end, st).

Definition validate_device (config : value) (device_name : str)
  : result value :=
  devices <~ getitem config (py "devices") ;;
  known <~ contains devices device_name ;;
  if negb known then
    devices <~ getitem config (py "devices") ;;
    names <~ keys devices ;;
    let available := join (py ", ") names in
    Raise (ValueError (py "Unknown device: " ++ device_name ++ [10]
                         ++ py "Available devices: " ++ available))
  else
    devices <~ getitem config (py "devices") ;;
    getitem devices device_name.

(** *** wakeup.py *)

(** What [parse_args] hands to [main]. *)
Record arguments := Args {
  arg_device : str;
  arg_config : str;
  arg_ssl_no_verify : bool
}.

(** The [except] clause that reports the failure; the line it writes
    to standard error is not modelled beyond that. *)
Inductive report :=
| Sent
| ConfigError (e : exn)
| ConfigurationError (e : exn)
| AuthenticationError (e : exn)
| ConnectionFailed (e : exn)
| DeviceError (e : exn)
| OperationError (e : exn)
| Cancelled
| UnexpectedError (e : exn).

Definition exit_code (r : report) : Z :=
  match r with
  | Sent => 0
  | Cancelled => 130
  | _ => 1
  end.

(** The [except] clauses of [main], in their order; an exception that
    is no [Exception] and no [KeyboardInterrupt] leaves [main]. *)
Definition handle (e : exn) : result report :=
  match e with
  | FileNotFoundError _ => Ok (ConfigError e)
  | ValueError _ | JSONDecodeError _ | UnicodeEncodeError | InvalidVersion =>
      Ok (ConfigurationError e)
  | PermissionError _ => Ok (AuthenticationError e)
  | ConnectionError _ => Ok (ConnectionFailed e)
  | LookupError _ | KeyError _ | IndexError => Ok (DeviceError e)
  | RuntimeError _ => Ok (OperationError e)
  | KeyboardInterrupt => Ok Cancelled
  | OtherBaseException _ => Raise e
  | _ => Ok (UnexpectedError e)
  end.

(** [print(line)]: the line goes to standard output, or the write
    raises. *)
Definition print (line : str) : M unit :=
  fun st =>
    match stdout env line (world st) with
    | Some e => (Raise e, st)
    | None => (Ok tt, st)
    end.

Definition main (args : arguments) : M report :=
  fun st =>
    let body :=
      config <- load_config (arg_config args) ;;
      config <- lift (setitem config (py "verify_ssl")
                        (VBool (negb (arg_ssl_no_verify args)))) ;;
      target_mac <- lift (validate_device config (arg_device args)) ;;
      host <- lift (getitem config (py "host")) ;;
      _ <- print (py "Connecting to FritzBox at " ++ format host
                    ++ py "...") ;;
      client <- lift (__init__ config) ;;
      sid <- authenticate client None ;;
      _ <- print (py "Looking up device " ++ arg_device args ++ py " ("
                    ++ format target_mac ++ py ")...") ;;
      uid <- get_device_uid client sid target_mac ;;
      _ <- print (py "Sending wake-up packet...") ;;
      _ <- send_wakeup client sid uid ;;
      _ <- print ([10003] ++ py " Wake-up packet sent successfully to "
                    ++ arg_device args ++ py " (" ++ format target_mac
                    ++ py ")") ;;
      ret Sent in
    match body st with
    | (Ok r, st') => (Ok r, st')
    | (Raise e, st') => (handle e, st')
    end.

End Program.

Arguments ret {env A} a.
Arguments raise {env A} e.
Arguments bind {env A B} m k.
Arguments lift {env A} r.
Arguments except_key_index {env A} body handler.

(** ** Notions the specification uses *)

(** A lowercase hexadecimal digit. *)
Definition lower_hex (c : N) : bool :=
  ((48 <=? c) && (c <=? 57)) || ((97 <=? c) && (c <=? 102)).

(** A string Python can encode: every code point is a Unicode scalar
    value, so none is a surrogate. *)
Definition encodable (s : str) : bool := forallb Utf16.scalar s.

(** The content-type indicates JSON. *)
Definition indicates_json (r : response) : bool :=
  startswith (match content_type r with Some c => c | None => [] end)
    (py "application/json").

(** The parsed body has [data.btn_wake] equal to ["ok"]. *)
Definition btn_wake_ok (r : response) : bool :=
  match json r with
  | Some (VDict top) =>
      match lookup (py "data") top with
      | Some (VDict d) =>
          match lookup (py "btn_wake") d with
          | Some v => eq_str v (py "ok")
          | None => false
          end
      | _ => false
      end
  | _ => false
  end.

(** The success signal of the specification: (a) for a JSON response,
    (b) for any other. *)
Definition wake_signal (r : response) : bool :=
  if indicates_json r then btn_wake_ok r
  else str_contains (text r) pid_netDev.

(** A JSON response is well shaped when its body parses to an object
    whose [data] member is absent or an object; any other response is. *)
Definition well_shaped (r : response) : bool :=
  if indicates_json r then
    match json r with
    | Some (VDict top) =>
        match lookup (py "data") top with
        | None | Some (VDict _) => true
        | Some _ => false
        end
    | _ => false
    end
  else true.

(** An inventory entry: an object with a [mac] and a [UID] field. *)
Definition is_entry (device : value) : bool :=
  match getitem device (py "mac"), getitem device (py "UID") with
  | Ok _, Ok _ => true
  | _, _ => false
  end.

(** The entry's [mac] field is the string [mac], code point for code
    point. *)
Definition has_mac (mac : str) (device : value) : bool :=
  match getitem device (py "mac") with
  | Ok (VStr m) => str_eqb m mac
  | _ => false
  end.

Definition not_found (mac : str) : exn :=
  LookupError (py "Device with MAC address " ++ mac
                 ++ py " not found in FritzBox").

(** Device resolution in the specification's words: the [UID] of the
    first matching entry, the passive group before the active one. *)
Definition resolve (passive active : list value) (mac : str)
  : result value :=
  match find (has_mac mac) (passive ++ active) with
  | Some device => getitem device (py "UID")
  | None => Raise (not_found mac)
  end.

(** The first whitespace-delimited token of a string, if it has one. *)
Fixpoint drop_spaces (s : str) : str :=
  match s with
  | [] => []
  | c :: s' => if is_space c then drop_spaces s' else s
  end.

Fixpoint take_token (s : str) : str :=
  match s with
  | [] => []
  | c :: s' => if is_space c then [] else c :: take_token s'
  end.

Definition first_token (s : str) : option str :=
  match take_token (drop_spaces s) with
  | [] => None
  | t => Some t
  end.

(** The required keys a configuration object lacks, in their order. *)
Definition absent_keys (items : list (str * value)) : list str :=
  filter (fun field =>
            match lookup field items with
            | None => true
            | Some _ => false
            end)
    required_fields.

Definition missing_message (missing : list str) : str :=
  py "Missing required fields: " ++ join (py ", ") missing.

Definition unknown_message (device_name : str) (names : list str) : str :=
  py "Unknown device: " ++ device_name ++ [10] ++ py "Available devices: "
    ++ join (py ", ") names.

(** The event is a request sent with [verify=v], or no request. *)
Definition verified (v : value) (e : event) : Prop :=
  match e with
  | Http q => req_verify q = v
  | Prompt _ => True
  end.

(** The event is not a password prompt. *)
Definition silent (e : event) : Prop :=
  match e with
  | Http _ => True
  | Prompt _ => False
  end.

(** A computation only adds events satisfying [P] to the trace. *)
Definition emits {env : Env} {A : Type} (P : event -> Prop) (m : M env A)
  : Prop :=
  forall st, exists l, trace (snd (m st)) = trace st ++ l /\ Forall P l.

(** The body of the [try] in [main]. *)
Definition main_body (env : Env) (args : arguments) : M env report :=
  bind (load_config env (arg_config args)) (fun config =>
  bind (lift (setitem config (py "verify_ssl")
                (VBool (negb (arg_ssl_no_verify args))))) (fun config =>
  bind (lift (validate_device config (arg_device args))) (fun target_mac =>
  bind (lift (getitem config (py "host"))) (fun host =>
  bind (print env (py "Connecting to FritzBox at " ++ format env host
                     ++ py "...")) (fun _ =>
  bind (lift (__init__ env config)) (fun client =>
  bind (authenticate env client None) (fun sid =>
  bind (print env (py "Looking up device " ++ arg_device args ++ py " ("
                     ++ format env target_mac ++ py ")...")) (fun _ =>
  bind (get_device_uid env client sid target_mac) (fun uid =>
  bind (print env (py "Sending wake-up packet...")) (fun _ =>
  bind (send_wakeup env client sid uid) (fun _ =>
  bind (print env ([10003] ++ py " Wake-up packet sent successfully to "
                     ++ arg_device args ++ py " (" ++ format env target_mac
                     ++ py ")")) (fun _ => ret Sent)))))))))))).

(** A string without whitespace. *)
Definition no_space (s : str) : bool :=
  forallb (fun c => negb (is_space c)) s.

(** The firmware probe and the wake request of a client, as events. *)
Definition probe_event (self : FritzBoxClient) (sid : str) : event :=
  Http (Request POST (url_data self) (Some (overview_payload sid))
          (verify_ssl self)).

Definition wake_event (self : FritzBoxClient) (sid : str) (uid : value)
  (page : str) : event :=
  Http (Request POST (url_data self) (Some (wake_payload sid uid page))
          (verify_ssl self)).


(** ** A scripted router, to run the program on concrete inputs

    The world is the list of answers still to come; the prompt always
    yields [password]; [files] is the file system. *)

Definition scripted (password : str) (files : str -> file_state) : Env :=
  {| World := list (result response);
     http := fun _ w =>
       match w with
       | r :: rest => (r, rest)
       | [] => (Raise (OtherException (py "ConnectionError")), [])
       end;
     getpass := fun _ w => (Ok password, w);
     file_at := fun p _ => files p;
     stdout := fun _ _ => None;
     lower_nonascii := fun s => s;
     repr_other := fun _ => py "?";
     eq_other := fun _ _ => false;
     version_le_other := fun _ _ => Raise InvalidVersion |}.

Definition no_files : str -> file_state := fun _ => Absent.

Definition lab : Env := scripted (py "secret") no_files.

Definition home_config : value :=
  VDict [(py "host", VStr (py "192.168.1.1")); (py "port", VInt 49443);
         (py "username", VStr (py "admin"));
         (py "devices", VDict [(py "mypc", VStr (py "AA:BB:CC:DD:EE:FF"))])].

(** A file system with a good configuration and one that names only
    the host. *)
Definition home_files (path : str) : file_state :=
  if str_eqb path (py "wakeup.json") then Parsed home_config
  else if str_eqb path (py "broken.json") then
    Parsed (VDict [(py "host", VStr (py "192.168.1.1"))])
  else Absent.

Definition home : Env := scripted (py "secret") home_files.

(** What the router sends back. *)
Definition session_info (sid challenge : str) : node :=
  Element (py "SessionInfo")
    [Element (py "SID") [Text sid];
     Element (py "Challenge") [Text challenge];
     Element (py "BlockTime") [Text (py "0")]].

Definition xml_response (tree : node) : response :=
  Response (Some (py "text/xml")) [] (Some tree) None.

Definition json_response (v : value) : response :=
  Response (Some (py "application/json; charset=utf-8")) [] None (Some v).

Definition html_response (body : str) : response :=
  Response (Some (py "text/html")) body None None.

Definition home_client : FritzBoxClient :=
  {| config := home_config;
     host := VStr (py "192.168.1.1");
     port := VInt 49443;
     username := VStr (py "admin");
     verify_ssl := VBool true;
     url_login := py "https://192.168.1.1:49443/login_sid.lua";
     url_data := py "https://192.168.1.1:49443/data.lua" |}.


Definition a_sid : str := py "9c4a1f0e2b7d5a63".

Definition a_uid : value := VStr (py "landevice4711").

(** The answer to the firmware query on a router running [nspver]. *)
Definition overview (nspver : str) : response :=
  json_response
    (VDict [(py "data",
             VDict [(py "fritzos", VDict [(py "nspver", VStr nspver)])])]).

Definition device (mac uid : str) : value :=
  VDict [(py "UID", VStr uid); (py "mac", VStr mac);
         (py "name", VStr (py "host"))].

Definition inventory (passive active : list value) : response :=
  json_response
    (VDict [(py "pid", VStr (py "netDev"));
            (py "data",
             VDict [(py "active", VList active);
                    (py "passive", VList passive)])]).

Definition wake_reply (btn_wake : str) : response :=
  json_response
    (VDict [(py "data", VDict [(py "btn_wake", VStr btn_wake)])]).

(** The two answers of a login: the challenge, then the session. *)
Definition login_script (sid : str) : list (result response) :=
  [Ok (xml_response (session_info SID_NOAUTH (py "1234567z")));
   Ok (xml_response (session_info sid (py "1234567z")))].

Definition start (script : list (result response)) : state lab :=
  @State lab script [].

(** Every answer of a run that wakes [mypc]. *)
Definition successful_run : list (result response) :=
  login_script a_sid
    ++ [Ok (inventory [] [device (py "AA:BB:CC:DD:EE:FF") (py "landevice4711")]);
        Ok (overview (py "7.50"));
        Ok (wake_reply (py "ok"))].

(** A machine that runs unattended: the password is in the file. *)
Definition unattended_items : list (str * value) :=
  [(py "host", VStr (py "192.168.1.1")); (py "port", VInt 49443);
   (py "username", VStr (py "admin")); (py "password", VStr (py "hunter2"));
   (py "devices", VDict [(py "mypc", VStr (py "AA:BB:CC:DD:EE:FF"))])].

Definition unattended : Env :=
  scripted (py "never asked") (fun _ => Parsed (VDict unattended_items)).

(** * Theorems *)

(** ** Strings *)

Lemma str_eqb_eq (a b : str) : str_eqb a b = true <-> a = b.
Proof.
  revert b; induction a as [|x a IH]; intros [|y b]; simpl;
    try (split; [discriminate | congruence]); try tauto.
  rewrite andb_true_iff, N.eqb_eq, IH. split.
  - intros [-> ->]; reflexivity.
  - intros H; injection H; auto.
Qed.

Lemma str_eqb_refl (a : str) : str_eqb a a = true.
Proof. apply str_eqb_eq; reflexivity. Qed.

Lemma str_eqb_neq (a b : str) : str_eqb a b = false <-> a <> b.
Proof.
  rewrite <- str_eqb_eq. destruct (str_eqb a b); split; congruence.
Qed.

Lemma startswith_app (p s : str) : startswith (p ++ s) p = true.
Proof.
  induction p as [|x p IH]; simpl; [destruct s; reflexivity|].
  rewrite N.eqb_refl; exact IH.
Qed.

Lemma str_contains_unfold (s p : str) :
  str_contains s p
  = startswith s p
    || match s with [] => false | _ :: s' => str_contains s' p end.
Proof. destruct s; reflexivity. Qed.

Lemma str_contains_app (a k b : str) : str_contains (a ++ k ++ b) k = true.
Proof.
  induction a as [|x a IH].
  - rewrite str_contains_unfold. simpl. rewrite startswith_app. reflexivity.
  - rewrite str_contains_unfold. simpl. rewrite IH. apply orb_true_r.
Qed.

Lemma join_contains (sep k : str) (parts : list str) :
  In k parts -> exists a b, join sep parts = a ++ k ++ b.
Proof.
  induction parts as [|p rest IH]; simpl; [tauto|].
  intros [->|Hin].
  - destruct rest as [|q rest'].
    + exists [], []. simpl. rewrite app_nil_r. reflexivity.
    + exists [], (sep ++ join sep (q :: rest')). reflexivity.
  - destruct rest as [|q rest']; [destruct Hin|].
    destruct (IH Hin) as (a & b & E).
    exists (p ++ sep ++ a), b. rewrite E, <- !app_assoc. reflexivity.
Qed.

(** ** MD5 *)

(** The RFC 1321 test suite. *)
Example md5_empty :
  MD5.hexdigest [] = py "d41d8cd98f00b204e9800998ecf8427e".
Proof. vm_compute. reflexivity. Qed.

Example md5_abc :
  MD5.hexdigest (py "abc") = py "900150983cd24fb0d6963f7d28e17f72".
Proof. vm_compute. reflexivity. Qed.

Example md5_message_digest :
  MD5.hexdigest (py "message digest") = py "f96b697d7cb7938d525a2f31aaf161d0".
Proof. vm_compute. reflexivity. Qed.

Example md5_two_blocks :
  MD5.hexdigest
    (py "12345678901234567890123456789012345678901234567890123456789012345678901234567890")
  = py "57edf4a22be3c955ac49da2e2107b67a".
Proof. vm_compute. reflexivity. Qed.

Example md5_alphanumeric :
  MD5.hexdigest
    (py "ABCDEFGHIJKLMNOPQRSTUVWXYZabcdefghijklmnopqrstuvwxyz0123456789")
  = py "d174ab98d277d9f5a5611c2c9f419d9f".
Proof. vm_compute. reflexivity. Qed.

(** ** The challenge response *)

Lemma encode_char_scalar (c : N) :
  Utf16.scalar c = true -> exists b, Utf16.encode_char c = Some b.
Proof.
  unfold Utf16.scalar, Utf16.encode_char.
  rewrite andb_true_iff, negb_true_iff. intros [-> Hc].
  destruct (c <? 0x10000); [eauto|]. rewrite Hc. eauto.
Qed.

Lemma encode_total (s : str) :
  encodable s = true -> exists bytes, Utf16.encode s = Some bytes.
Proof.
  unfold encodable. induction s as [|c s IH]; simpl; [eauto|].
  rewrite andb_true_iff. intros [Hc Hs].
  destruct (encode_char_scalar c Hc) as [b ->].
  destruct (IH Hs) as [bs ->]. eauto.
Qed.

Lemma encode_surrogate (a b : str) (c : N) :
  Utf16.is_surrogate c = true -> Utf16.encode (a ++ c :: b) = None.
Proof.
  intros Hc. induction a as [|x a IH]; simpl.
  - unfold Utf16.encode_char. rewrite Hc. reflexivity.
  - rewrite IH. destruct (Utf16.encode_char x); reflexivity.
Qed.

Lemma encodable_app (a b : str) :
  encodable (a ++ b) = encodable a && encodable b.
Proof. apply forallb_app. Qed.

Lemma hexdigit_lower (n : N) : n < 16 -> lower_hex (MD5.hexdigit n) = true.
Proof.
  intros Hn. unfold MD5.hexdigit, lower_hex.
  destruct (N.ltb_spec n 10).
  - apply orb_true_iff; left. apply andb_true_iff; split;
      apply N.leb_le; lia.
  - apply orb_true_iff; right. apply andb_true_iff; split;
      apply N.leb_le; lia.
Qed.

Lemma hex_length (bs : list N) :
  List.length (MD5.hex bs) = (2 * List.length bs)%nat.
Proof.
  unfold MD5.hex. induction bs as [|b bs IH]; simpl; [reflexivity|].
  rewrite IH. lia.
Qed.

Lemma hex_lower (bs : list N) : forallb lower_hex (MD5.hex bs) = true.
Proof.
  unfold MD5.hex. induction bs as [|b bs IH]; [reflexivity|].
  cbn [flat_map app forallb]. rewrite IH.
  rewrite !hexdigit_lower; [reflexivity| |];
    apply N.mod_lt; discriminate.
Qed.

Lemma digest_length (msg : list N) : List.length (MD5.digest msg) = 16%nat.
Proof.
  unfold MD5.digest.
  generalize (MD5.blocks (List.length (MD5.pad msg)) MD5.init (MD5.pad msg)).
  intros r. rewrite !length_app. reflexivity.
Qed.

Lemma hexdigest_form (msg : list N) :
  List.length (MD5.hexdigest msg) = 32%nat
  /\ forallb lower_hex (MD5.hexdigest msg) = true.
Proof.
  unfold MD5.hexdigest. split.
  - rewrite hex_length, digest_length. reflexivity.
  - apply hex_lower.
Qed.

(** C1, as amended: for a challenge [C] and a password [P] without
    surrogate code points, [_calculate_response] returns [C], a hyphen
    and the lowercase hexadecimal MD5 digest of the UTF-16-LE bytes of
    ["C-P"], which is 32 lowercase hexadecimal characters; being a
    function of [C] and [P] alone, it is deterministic. *)
Theorem calculate_response_form (env : Env) (C P : str) :
  encodable C = true -> encodable P = true ->
  exists bytes,
    Utf16.encode (C ++ py "-" ++ P) = Some bytes
    /\ _calculate_response env C (VStr P)
       = Ok (C ++ py "-" ++ MD5.hexdigest bytes)
    /\ List.length (MD5.hexdigest bytes) = 32%nat
    /\ forallb lower_hex (MD5.hexdigest bytes) = true.
Proof.
  intros HC HP.
  assert (H : encodable (C ++ py "-" ++ P) = true).
  { rewrite !encodable_app, HC, HP. reflexivity. }
  destruct (encode_total _ H) as [bytes E].
  exists bytes. split; [exact E|]. split.
  - unfold _calculate_response. cbn [format]. rewrite E. reflexivity.
  - apply hexdigest_form.
Qed.

Lemma calculate_response_form_witness :
  exists bytes,
    Utf16.encode (py "1234567z" ++ py "-" ++ py "secret") = Some bytes
    /\ _calculate_response lab (py "1234567z") (VStr (py "secret"))
       = Ok (py "1234567z" ++ py "-" ++ MD5.hexdigest bytes)
    /\ List.length (MD5.hexdigest bytes) = 32%nat
    /\ forallb lower_hex (MD5.hexdigest bytes) = true.
Proof.
  apply (@calculate_response_form lab (py "1234567z") (py "secret"));
    reflexivity.
Defined.

(** C1 as stated fails: a password holding a lone surrogate (which
    [json.load] produces from an escape such as [\ud800]) cannot be
    encoded, and [_calculate_response] raises instead of returning. *)
Lemma calculate_response_surrogate :
  Utf16.encode (py "1234567z" ++ py "-" ++ [0xD800]) = None
  /\ _calculate_response lab (py "1234567z") (VStr [0xD800])
     = Raise UnicodeEncodeError.
Proof. split; reflexivity. Qed.

(** Any surrogate anywhere in the password has that effect. *)
Lemma calculate_response_unencodable (env : Env) (C a b : str) (c : N) :
  Utf16.is_surrogate c = true ->
  _calculate_response env C (VStr (a ++ c :: b)) = Raise UnicodeEncodeError.
Proof.
  intros Hc. unfold _calculate_response. cbn [format].
  rewrite app_assoc, app_assoc, (encode_surrogate _ b c Hc). reflexivity.
Qed.

(** What the vendor documents for challenge [1234567z] and password
    [äbc]. *)
Example calculate_response_vendor :
  _calculate_response lab (py "1234567z") (VStr [228; 98; 99])
  = Ok (py "1234567z-9e224a41eeefa284df7bb0f26c2913e2").
Proof. vm_compute. reflexivity. Qed.

(** A code point beyond the basic plane goes out as a surrogate pair. *)
Example calculate_response_astral :
  _calculate_response lab (py "abc") (VStr [0x1F600])
  = Ok (py "abc-12eddaeeffa05f587952bca23f6801e8").
Proof. vm_compute. reflexivity. Qed.

(** ** The monad and the trace *)

Section Facts.

Variable env : Env.

Lemma bind_ok {A B} (m : M env A) (k : A -> M env B) st a st' :
  m st = (Ok a, st') -> bind m k st = k a st'.
Proof. intros H. unfold bind. rewrite H. reflexivity. Qed.

Lemma bind_raise {A B} (m : M env A) (k : A -> M env B) st e st' :
  m st = (Raise e, st') -> bind m k st = (Raise e, st').
Proof. intros H. unfold bind. rewrite H. reflexivity. Qed.

Lemma emits_ret {A} P (a : A) : emits P (ret (env := env) a).
Proof. intros st. exists []. rewrite app_nil_r. auto. Qed.

Lemma emits_raise {A} P e : emits P (raise (env := env) (A := A) e).
Proof. intros st. exists []. rewrite app_nil_r. auto. Qed.

Lemma emits_lift {A} P (r : result A) : emits P (lift (env := env) r).
Proof. intros st. exists []. rewrite app_nil_r. auto. Qed.

Lemma emits_bind {A B} P (m : M env A) (k : A -> M env B) :
  emits P m -> (forall a, emits P (k a)) -> emits P (bind m k).
Proof.
  intros Hm Hk st. unfold bind.
  destruct (Hm st) as (l1 & E1 & F1).
  destruct (m st) as [[a|e] st1]; simpl in E1.
  - destruct (Hk a st1) as (l2 & E2 & F2).
    exists (l1 ++ l2). rewrite E2, E1, app_assoc. split; [reflexivity|].
    apply Forall_app; auto.
  - exists l1. auto.
Qed.

Lemma emits_except {A} P (body handler : M env A) :
  emits P body -> emits P handler -> emits P (except_key_index body handler).
Proof.
  intros Hb Hh st. unfold except_key_index.
  destruct (Hb st) as (l1 & E1 & F1).
  assert (Hcatch : exists l,
             trace (snd (handler (snd (body st)))) = trace st ++ l
             /\ Forall P l).
  { destruct (Hh (snd (body st))) as (l2 & E2 & F2).
    exists (l1 ++ l2). rewrite E2, E1, app_assoc. split; [reflexivity|].
    apply Forall_app; auto. }
  destruct (body st) as [[a|e] st1]; simpl in *.
  - exists l1; auto.
  - destruct e; try (exists l1; auto; fail); exact Hcatch.
Qed.

Lemma send_trace v url data verify st :
  trace (snd (send env v url data verify st))
  = trace st ++ [Http (Request v url data verify)].
Proof.
  unfold send. destruct (http env _ (world st)) as [[resp|e] w'].
  - reflexivity.
  - destruct e; reflexivity.
Qed.

Lemma send_not_none v url data verify st :
  fst (send env v url data verify st) <> Ok None.
Proof.
  unfold send. destruct (http env _ (world st)) as [[resp|e] w'].
  - simpl. discriminate.
  - destruct e; simpl; discriminate.
Qed.

Lemma emits_make_request (P : event -> Prop) method url data verify :
  (forall v, P (Http (Request v url data verify))) ->
  emits P (_make_request env method url data verify).
Proof.
  intros HP st. unfold _make_request.
  destruct (str_eqb (lower env method) (py "get"));
    [|destruct (str_eqb (lower env method) (py "post"))].
  - exists [Http (Request GET url data verify)].
    rewrite send_trace. auto.
  - exists [Http (Request POST url data verify)].
    rewrite send_trace. auto.
  - exists []. simpl. rewrite app_nil_r. auto.
Qed.

End Facts.

(** ** The transport wrapper *)

(** C8: with a method that is neither [get] nor [post] once
    lower-cased, [_make_request] sends nothing and returns [None]; with
    [get] or [post], as every caller passes, it sends exactly one request
    and never returns [None]. *)
Theorem make_request_falls_through (env : Env) :
  (forall method url data verify st,
      lower env method <> py "get" -> lower env method <> py "post" ->
      _make_request env method url data verify st = (Ok None, st))
  /\ (forall method url data verify st,
         lower env method = py "get" \/ lower env method = py "post" ->
         fst (_make_request env method url data verify st) <> Ok None
         /\ exists q,
             trace (snd (_make_request env method url data verify st))
             = trace st ++ [Http q]).
Proof.
  split.
  - intros method url data verify st Hget Hpost. unfold _make_request.
    apply str_eqb_neq in Hget, Hpost. rewrite Hget, Hpost. reflexivity.
  - intros method url data verify st H. unfold _make_request.
    destruct (str_eqb (lower env method) (py "get")) eqn:Eg.
    + split; [apply send_not_none|]. eexists. apply send_trace.
    + destruct H as [H|H].
      * rewrite H in Eg. discriminate.
      * rewrite H. simpl str_eqb.
        split; [apply send_not_none|]. eexists. apply send_trace.
Qed.

Lemma make_request_falls_through_witness :
  let st : state lab := @State lab [] [] in
  _make_request lab (py "PUT") (py "https://fritz.box:443/data.lua") None
    (VBool true) st = (Ok None, st)
  /\ fst (_make_request lab (py "Post") (py "https://fritz.box:443/data.lua")
            None (VBool true) st) <> Ok None.
Proof.
  destruct (make_request_falls_through lab) as [H1 H2]. split.
  - apply H1; discriminate.
  - apply H2. right. reflexivity.
Defined.

(** ** Authentication *)

Section Authentication.

Variable env : Env.
Variable self : FritzBoxClient.

Lemma emits_get_challenge (P : event -> Prop) :
  (forall q, req_verify q = verify_ssl self -> P (Http q)) ->
  emits P (_get_challenge env self).
Proof.
  intros HP. unfold _get_challenge.
  apply emits_bind; [apply emits_make_request; intros; apply HP; reflexivity|].
  intros r. apply emits_lift.
Qed.

Lemma emits_login_exchange (P : event -> Prop) password :
  (forall q, req_verify q = verify_ssl self -> P (Http q)) ->
  (password = None -> forall s, P (Prompt s)) ->
  emits P (login_exchange env self password).
Proof.
  intros HP Hprompt. unfold login_exchange.
  apply emits_bind.
  - destruct password as [p|]; [apply emits_ret|].
    apply emits_bind; [apply emits_lift|]. intros configured.
    destruct (truthy configured); [apply emits_ret|].
    intros st. destruct (getpass env _ (world st)) as [r w'].
    exists [Prompt (py "Password: ")]. simpl. auto.
  - intros p. apply emits_bind; [apply emits_get_challenge; exact HP|].
    intros challenge. apply emits_bind; [apply emits_lift|].
    intros response. apply emits_make_request. intros; apply HP; reflexivity.
Qed.

Lemma emits_authenticate (P : event -> Prop) password :
  (forall q, req_verify q = verify_ssl self -> P (Http q)) ->
  (password = None -> forall s, P (Prompt s)) ->
  emits P (authenticate env self password).
Proof.
  intros HP Hprompt. unfold authenticate.
  apply emits_bind; [apply emits_login_exchange; assumption|].
  intros r. apply emits_bind; [apply emits_lift|].
  intros sid. destruct (str_eqb sid SID_NOAUTH);
    [apply emits_raise | apply emits_ret].
Qed.

End Authentication.

(** C4: once the login response yields an [SID] text, [authenticate]
    raises [PermissionError] exactly when that text is the all-zero
    sentinel, whatever the challenge and the password were, and returns
    the text otherwise; so it never returns the sentinel. *)
Theorem authenticate_sentinel (env : Env) (self : FritzBoxClient)
  (password : option value) (st : state env) :
  (forall r st' sid,
      login_exchange env self password st = (Ok r, st') ->
      extract_sid r = Ok sid ->
      authenticate env self password st
      = (if str_eqb sid SID_NOAUTH then Raise (PermissionError auth_failed)
         else Ok sid, st')
      /\ ((exists msg, fst (authenticate env self password st)
                       = Raise (PermissionError msg))
          <-> sid = SID_NOAUTH))
  /\ fst (authenticate env self password st) <> Ok SID_NOAUTH.
Proof.
  split.
  - intros r st' sid Hlogin Hsid.
    assert (E : authenticate env self password st
                = (if str_eqb sid SID_NOAUTH
                   then Raise (PermissionError auth_failed)
                   else Ok sid, st')).
    { unfold authenticate. rewrite (bind_ok env _ _ _ _ _ Hlogin).
      unfold bind, lift. rewrite Hsid.
      destruct (str_eqb sid SID_NOAUTH); reflexivity. }
    split; [exact E|]. rewrite E. simpl.
    destruct (str_eqb sid SID_NOAUTH) eqn:Es.
    + apply str_eqb_eq in Es. split; [auto|]. intros _. eauto.
    + apply str_eqb_neq in Es. split; [|tauto].
      intros [msg Hmsg]. discriminate.
  - unfold authenticate, bind, lift.
    destruct (login_exchange env self password st) as [[r|e] st1];
      [|simpl; discriminate].
    destruct (extract_sid r) as [sid|e]; [|simpl; discriminate].
    destruct (str_eqb sid SID_NOAUTH) eqn:Es; simpl; [discriminate|].
    apply str_eqb_neq in Es. congruence.
Qed.

Lemma authenticate_sentinel_witness :
  (exists st',
      authenticate lab home_client (Some (VStr (py "secret")))
        (start (login_script a_sid)) = (Ok a_sid, st'))
  /\ (exists st',
         authenticate lab home_client (Some (VStr (py "wrong")))
           (start (login_script SID_NOAUTH))
         = (Raise (PermissionError auth_failed), st')).
Proof.
  split.
  - destruct (authenticate_sentinel lab home_client
                (Some (VStr (py "secret"))) (start (login_script a_sid)))
      as [H _].
    edestruct H as [E _]; [lazy; reflexivity | lazy; reflexivity |].
    eexists. exact E.
  - destruct (authenticate_sentinel lab home_client
                (Some (VStr (py "wrong"))) (start (login_script SID_NOAUTH)))
      as [H _].
    edestruct H as [E _]; [lazy; reflexivity | lazy; reflexivity |].
    eexists. exact E.
Defined.



(** ** The data endpoint *)

Section DataEndpoint.

Variable env : Env.
Variable self : FritzBoxClient.
Variable P : event -> Prop.
Hypothesis HP : forall q, req_verify q = verify_ssl self -> P (Http q).

Lemma emits_get_device_uid sid mac :
  emits P (get_device_uid env self sid mac).
Proof.
  unfold get_device_uid.
  apply emits_bind; [apply emits_make_request; intros; apply HP; reflexivity|].
  intros r. apply emits_lift.
Qed.

Lemma emits_get_firmware_version sid :
  emits P (get_firmware_version env self sid).
Proof.
  unfold get_firmware_version. apply emits_except; [|apply emits_ret].
  apply emits_bind; [apply emits_make_request; intros; apply HP; reflexivity|].
  intros r. apply emits_lift.
Qed.

Lemma emits_send_wakeup sid uid :
  emits P (send_wakeup env self sid uid).
Proof.
  unfold send_wakeup.
  apply emits_bind; [apply emits_get_firmware_version|]. intros fw.
  apply emits_bind; [apply emits_lift|]. intros older.
  apply emits_bind; [apply emits_make_request; intros; apply HP; reflexivity|].
  intros r. apply emits_bind; [apply emits_lift|]. intros success.
  destruct (negb success); [apply emits_raise | apply emits_ret].
Qed.

End DataEndpoint.

(** C10: a client built from a configuration without a [verify_ssl]
    key has [verify_ssl] set to [True], and every request any of its
    methods sends carries [verify=True]. *)
Theorem verify_ssl_default (env : Env) (items : list (str * value))
  (self : FritzBoxClient) :
  lookup (py "verify_ssl") items = None ->
  __init__ env (VDict items) = Ok self ->
  verify_ssl self = VBool true
  /\ emits (verified (VBool true)) (_get_challenge env self)
  /\ (forall password,
         emits (verified (VBool true)) (authenticate env self password))
  /\ (forall sid mac,
         emits (verified (VBool true)) (get_device_uid env self sid mac))
  /\ (forall sid,
         emits (verified (VBool true)) (get_firmware_version env self sid))
  /\ (forall sid uid,
         emits (verified (VBool true)) (send_wakeup env self sid uid)).
Proof.
  intros Hkey Hinit.
  assert (Hv : verify_ssl self = VBool true).
  { unfold __init__ in Hinit.
    destruct (getitem (VDict items) (py "host")); [|discriminate].
    destruct (getitem (VDict items) (py "port")); [|discriminate].
    destruct (getitem (VDict items) (py "username")); [|discriminate].
    cbn [rbind get] in Hinit. rewrite Hkey in Hinit.
    injection Hinit as <-. reflexivity. }
  assert (HP : forall q, req_verify q = verify_ssl self
                         -> verified (VBool true) (Http q)).
  { intros q Hq. simpl. congruence. }
  split; [exact Hv|].
  split; [apply emits_get_challenge; exact HP|].
  split; [intros; apply emits_authenticate; [exact HP | intros; exact I]|].
  split; [intros; apply emits_get_device_uid; exact HP|].
  split; [intros; apply emits_get_firmware_version; exact HP|].
  intros; apply emits_send_wakeup; exact HP.
Qed.

Lemma verify_ssl_default_witness :
  verify_ssl home_client = VBool true
  /\ emits (verified (VBool true))
       (authenticate lab home_client (Some (VStr (py "secret")))).
Proof.
  destruct (verify_ssl_default lab
              [(py "host", VStr (py "192.168.1.1")); (py "port", VInt 49443);
               (py "username", VStr (py "admin"));
               (py "devices",
                VDict [(py "mypc", VStr (py "AA:BB:CC:DD:EE:FF"))])]
              home_client)
    as (H1 & _ & H2 & _).
  - reflexivity.
  - reflexivity.
  - split; [exact H1 | apply H2].
Defined.

(** ** Version comparison *)

Lemma dropwhile_zero_snoc (l : list N) (x : N) :
  Version.dropwhile_zero (l ++ [x])
  = if forallb (fun y => y =? 0) l
    then (if x =? 0 then [] else [x])
    else Version.dropwhile_zero l ++ [x].
Proof.
  induction l as [|y l IH]; simpl; [reflexivity|].
  destruct (y =? 0); simpl; [exact IH | reflexivity].
Qed.

Lemma dropwhile_zero_all (l : list N) :
  forallb (fun y => y =? 0) l = true -> Version.dropwhile_zero l = [].
Proof.
  induction l as [|y l IH]; simpl; [reflexivity|].
  destruct (y =? 0); simpl; [exact IH | discriminate].
Qed.

Lemma forallb_rev {A} (f : A -> bool) (l : list A) :
  forallb f (rev l) = forallb f l.
Proof.
  induction l as [|x l IH]; simpl; [reflexivity|].
  rewrite forallb_app, IH. simpl. rewrite andb_true_r. apply andb_comm.
Qed.

Lemma cmpkey_cons (x : N) (a : list N) :
  Version.cmpkey (x :: a)
  = if forallb (fun y => y =? 0) (x :: a) then []
    else x :: Version.cmpkey a.
Proof.
  unfold Version.cmpkey. simpl rev. rewrite dropwhile_zero_snoc.
  rewrite forallb_rev. simpl forallb.
  destruct (forallb (fun y => y =? 0) a) eqn:Ha.
  - rewrite (dropwhile_zero_all (rev a)) by (rewrite forallb_rev; exact Ha).
    rewrite andb_true_r. destruct (x =? 0); reflexivity.
  - rewrite andb_false_r. rewrite rev_app_distr. reflexivity.
Qed.

Lemma cmpkey_all_zero (a : list N) :
  forallb (fun y => y =? 0) a = true -> Version.cmpkey a = [].
Proof.
  intros H. unfold Version.cmpkey.
  rewrite dropwhile_zero_all; [reflexivity|]. rewrite forallb_rev. exact H.
Qed.

Lemma cmpkey_not_all_zero (a : list N) :
  forallb (fun y => y =? 0) a = false ->
  exists x k, Version.cmpkey a = x :: k.
Proof.
  induction a as [|x a IH]; [discriminate|].
  intros H. rewrite cmpkey_cons, H. eauto.
Qed.

(** The key comparison of [packaging] is dotted-numeric precedence. *)
Lemma cmpkey_le_dotted (a b : list N) :
  Version.tuple_le (Version.cmpkey a) (Version.cmpkey b)
  = Version.dotted_le a b.
Proof.
  unfold Version.dotted_le.
  revert b; induction a as [|x a IH]; intros b.
  - simpl. destruct (forallb _ b); reflexivity.
  - destruct b as [|y b].
    + rewrite cmpkey_cons. cbn [Version.dotted_cmp].
      destruct (forallb _ (x :: a)); reflexivity.
    + rewrite !cmpkey_cons. cbn [Version.dotted_cmp].
      specialize (IH b).
      destruct (forallb _ (x :: a)) eqn:Ha;
        destruct (forallb _ (y :: b)) eqn:Hb; simpl in Ha, Hb.
      * apply andb_true_iff in Ha as [Hx Ha], Hb as [Hy Hb].
        apply N.eqb_eq in Hx, Hy. subst x y. simpl.
        rewrite <- IH, (cmpkey_all_zero a Ha). reflexivity.
      * apply andb_true_iff in Ha as [Hx Ha]. apply N.eqb_eq in Hx. subst x.
        cbn [Version.tuple_le].
        destruct (N.compare_spec 0 y) as [E|L|G]; [|reflexivity|lia].
        rewrite <- IH, (cmpkey_all_zero a Ha). reflexivity.
      * apply andb_true_iff in Hb as [Hy Hb]. apply N.eqb_eq in Hy. subst y.
        cbn [Version.tuple_le].
        destruct (N.compare_spec x 0) as [E|L|G]; [|lia|reflexivity].
        subst x. simpl in Ha.
        destruct (cmpkey_not_all_zero a Ha) as (z & k & Ek).
        rewrite <- IH, Ek, (cmpkey_all_zero b Hb). reflexivity.
      * cbn [Version.tuple_le].
        destruct (N.compare_spec x y) as [E|L|G].
        -- subst y. rewrite N.ltb_irrefl. exact IH.
        -- apply N.ltb_lt in L. rewrite L. reflexivity.
        -- assert (Hxy : (x <? y) = false) by (apply N.ltb_ge; lia).
           rewrite Hxy. apply N.ltb_lt in G. rewrite G. reflexivity.
Qed.

Lemma version_le_release (env : Env) (fw : str) (release : list N) :
  Version.parse_release fw = Some release ->
  version_le env fw (py "7.24") = Ok (Version.dotted_le release [7; 24]).
Proof.
  intros H. unfold version_le. rewrite H.
  change (Version.parse_release (py "7.24")) with (Some [7; 24]).
  cbv iota. rewrite cmpkey_le_dotted. reflexivity.
Qed.

(** ** The wake request *)

Lemma make_request_post (env : Env) url data verify :
  _make_request env (py "post") url data verify = send env POST url data verify.
Proof. reflexivity. Qed.

(** C3, as amended: when the firmware query returns a dotted-numeric
    version, the one request [send_wakeup] sends after it is a [POST] to
    the data URL whose form data has [page] equal to [edit_device2] if the
    version is at most 7.24 in dotted-numeric precedence and to
    [edit_device] otherwise, next to the session id and the device; 7.2,
    7.24 and the fallback 0.0 are at most 7.24, while 7.25 and 7.30 are
    not. *)
Theorem send_wakeup_page (env : Env) (self : FritzBoxClient) (sid : str)
  (uid : value) (st : state env) :
  (forall fw st1 release,
      get_firmware_version env self sid st = (Ok fw, st1) ->
      Version.parse_release fw = Some release ->
      exists payload,
        trace (snd (send_wakeup env self sid uid st))
        = trace st1
            ++ [Http (Request POST (url_data self) (Some payload)
                        (verify_ssl self))]
        /\ lookup (py "page") payload
           = Some (VStr (if Version.dotted_le release [7; 24]
                         then py "edit_device2"
                         else py "edit_device"))
        /\ lookup (py "sid") payload = Some (VStr sid)
        /\ lookup (py "dev") payload = Some uid)
  /\ version_le env (py "7.2") (py "7.24") = Ok true
  /\ version_le env (py "7.24") (py "7.24") = Ok true
  /\ version_le env (py "0.0") (py "7.24") = Ok true
  /\ version_le env (py "7.25") (py "7.24") = Ok false
  /\ version_le env (py "7.30") (py "7.24") = Ok false.
Proof.
  split; [|repeat split; reflexivity].
  intros fw st1 release Hfw Hrel.
  exists (wake_payload sid uid
            (if Version.dotted_le release [7; 24]
             then py "edit_device2" else py "edit_device")).
  split; [|repeat split; reflexivity].
  unfold send_wakeup. rewrite (bind_ok env _ _ _ _ _ Hfw).
  unfold bind at 1, lift at 1. rewrite (version_le_release env fw release Hrel).
  rewrite make_request_post. unfold bind at 1.
  match goal with
  | |- context [send env POST ?u ?d ?v st1] =>
      pose proof (send_trace env POST u d v st1) as Ht;
      destruct (send env POST u d v st1) as [[r|e] st2]
  end; simpl in Ht.
  - unfold bind, lift. destruct (wake_success r) as [[|]|e]; simpl;
      rewrite Ht; destruct (Version.dotted_le release [7; 24]); reflexivity.
  - simpl. rewrite Ht.
    destruct (Version.dotted_le release [7; 24]); reflexivity.
Qed.

(** Lexical order would put 7.3 above 7.24; the comparison does not. *)
Example version_le_not_lexical (env : Env) :
  version_le env (py "7.3") (py "7.24") = Ok true
  /\ version_le env (py "7.24.0") (py "7.24") = Ok true
  /\ version_le env (py "7.24.1") (py "7.24") = Ok false
  /\ version_le env (py "07.024") (py "7.24") = Ok true.
Proof. repeat split; reflexivity. Qed.

Lemma send_wakeup_page_witness :
  exists payload,
    trace (snd (send_wakeup lab home_client a_sid a_uid
                  (start [Ok (overview (py "7.2"));
                          Ok (wake_reply (py "ok"))])))
    = [Http (Request POST (url_data home_client)
               (Some (overview_payload a_sid)) (VBool true));
       Http (Request POST (url_data home_client) (Some payload)
               (VBool true))]
    /\ lookup (py "page") payload = Some (VStr (py "edit_device2")).
Proof.
  destruct (send_wakeup_page lab home_client a_sid a_uid
              (start [Ok (overview (py "7.2")); Ok (wake_reply (py "ok"))]))
    as [H _].
  destruct (H (py "7.2")
              (@State lab [Ok (wake_reply (py "ok"))]
                 [Http (Request POST (url_data home_client)
                          (Some (overview_payload a_sid)) (VBool true))])
              [7; 2] eq_refl eq_refl) as (payload & Ht & Hpage & _).
  exists payload. split; [exact Ht | exact Hpage].
Defined.

(** C3 as stated fails: the firmware query returns whatever the first
    token of [nspver] is; for the token [unknown], which is no version,
    the comparison raises [InvalidVersion] as [packaging] does, and
    [send_wakeup] ends after the probe without sending any page. *)
Lemma send_wakeup_unknown_version :
  let run := start [Ok (overview (py "unknown")); Ok (wake_reply (py "ok"))] in
  fst (get_firmware_version lab home_client a_sid run) = Ok (py "unknown")
  /\ Version.parse_release (py "unknown") = None
  /\ send_wakeup lab home_client a_sid a_uid run
     = (Raise InvalidVersion,
        @State lab [Ok (wake_reply (py "ok"))]
          [Http (Request POST (url_data home_client)
                   (Some (overview_payload a_sid)) (VBool true))]).
Proof. repeat split; reflexivity. Qed.

Lemma rbind_attr_some {A B} (r : response) (f : response -> A)
  (k : A -> result B) :
  rbind (attr (Some r) f) k = k (f r).
Proof. reflexivity. Qed.

(** The success test computes the specification's signal, and raises
    only on a JSON response that is not well shaped. *)
Lemma wake_success_spec (r : response) :
  wake_success (Some r)
  = if well_shaped r then Ok (wake_signal r)
    else match json r with
         | None => Raise (JSONDecodeError [])
         | Some _ => Raise AttributeError
         end.
Proof.
  unfold wake_success, well_shaped, wake_signal, btn_wake_ok, indicates_json.
  rewrite rbind_attr_some.
  destruct (startswith _ (py "application/json")); [|reflexivity].
  unfold response_json. rewrite rbind_attr_some.
  destruct (json r) as [[| | | | | |top]|]; try reflexivity.
  cbn [rbind get].
  destruct (lookup (py "data") top) as [[| | | | | |d]|]; try reflexivity.
  cbn [rbind get]. destruct (lookup (py "btn_wake") d); reflexivity.
Qed.





(** The four cases of the specification. *)
Example wake_json_ok :
  fst (send_wakeup lab home_client a_sid a_uid
         (start [Ok (overview (py "7.50")); Ok (wake_reply (py "ok"))]))
  = Ok true.
Proof. reflexivity. Qed.

Example wake_html_ok :
  fst (send_wakeup lab home_client a_sid a_uid
         (start [Ok (overview (py "7.50"));
                 Ok (html_response (py "{" ++ pid_netDev ++ py ",...}"))]))
  = Ok true.
Proof. reflexivity. Qed.

Example wake_html_fail :
  fst (send_wakeup lab home_client a_sid a_uid
         (start [Ok (overview (py "7.50"));
                 Ok (html_response (py "<html>login</html>"))]))
  = Raise (RuntimeError wake_failed).
Proof. reflexivity. Qed.

(** ** Device resolution *)

Lemma py_eq_str (env : Env) (v : value) (s : str) :
  py_eq env v (VStr s) = eq_str v s.
Proof. destruct v; reflexivity. Qed.

Lemma scan_devices_find (env : Env) (mac : str) (devices : list value) :
  forallb is_entry devices = true ->
  scan_devices env (VStr mac) devices
  = match find (has_mac mac) devices with
    | Some device => rbind (getitem device (py "UID")) (fun u => Ok (Some u))
    | None => Ok None
    end.
Proof.
  induction devices as [|d rest IH]; [reflexivity|].
  cbn [forallb find scan_devices]. rewrite andb_true_iff. intros [Hd Hrest].
  unfold is_entry in Hd. unfold has_mac.
  destruct (getitem d (py "mac")) as [m|e]; [|discriminate].
  cbn [rbind]. rewrite py_eq_str.
  destruct m; cbn [eq_str]; try (apply IH; exact Hrest).
  destruct (str_eqb s mac); [reflexivity | apply IH; exact Hrest].
Qed.

Lemma find_entry_uid (mac : str) (devices : list value) (d : value) :
  forallb is_entry devices = true ->
  find (has_mac mac) devices = Some d ->
  exists uid, getitem d (py "UID") = Ok uid.
Proof.
  intros Hall Hfind. apply find_some in Hfind as [Hin _].
  rewrite forallb_forall in Hall. specialize (Hall d Hin).
  unfold is_entry in Hall.
  destruct (getitem d (py "mac")); [|discriminate].
  destruct (getitem d (py "UID")); [eauto | discriminate].
Qed.

Lemma find_app {A} (f : A -> bool) (l1 l2 : list A) :
  find f (l1 ++ l2)
  = match find f l1 with Some x => Some x | None => find f l2 end.
Proof.
  induction l1 as [|x l1 IH]; simpl; [reflexivity|].
  destruct (f x); [reflexivity | exact IH].
Qed.

(** C5: on an inventory whose passive and active groups are lists of
    entries with [mac] and [UID] fields, [get_device_uid] returns the
    [UID] of the first entry whose [mac] is the requested string exactly,
    the passive group scanned before the active one, and raises
    [LookupError] when no entry of either group matches; a MAC found only
    in the active group resolves. *)
Theorem get_device_uid_first_match (env : Env) (self : FritzBoxClient)
  (sid mac : str) (st st' : state env) (r : response) (data d : value)
  (passive active : list value) :
  _make_request env (py "post") (url_data self) (Some (netdev_payload sid))
    (verify_ssl self) st = (Ok (Some r), st') ->
  json r = Some data ->
  getitem data (py "data") = Ok d ->
  getitem d (py "passive") = Ok (VList passive) ->
  getitem d (py "active") = Ok (VList active) ->
  forallb is_entry (passive ++ active) = true ->
  get_device_uid env self sid (VStr mac) st = (resolve passive active mac, st')
  /\ (forall device,
         find (has_mac mac) (passive ++ active) = Some device ->
         exists uid, resolve passive active mac = Ok uid
                     /\ getitem device (py "UID") = Ok uid)
  /\ (find (has_mac mac) (passive ++ active) = None ->
      resolve passive active mac = Raise (not_found mac))
  /\ (forall device,
         find (has_mac mac) passive = None ->
         find (has_mac mac) active = Some device ->
         resolve passive active mac = getitem device (py "UID")).
Proof.
  intros Hreq Hjson Hdata Hpassive Hactive Hall.
  split; [|split; [|split]].
  - unfold get_device_uid. rewrite (bind_ok env _ _ _ _ _ Hreq).
    unfold lift, response_json. rewrite rbind_attr_some, Hjson.
    cbn [rbind]. rewrite Hdata. cbn [rbind]. rewrite Hpassive, Hactive.
    cbn [rbind scan_lists iterate].
    rewrite forallb_app, andb_true_iff in Hall. destruct Hall as [Hp Ha].
    rewrite (scan_devices_find env mac passive Hp).
    rewrite (scan_devices_find env mac active Ha).
    unfold resolve. rewrite find_app.
    destruct (find (has_mac mac) passive) as [dev|] eqn:Fp.
    + destruct (find_entry_uid mac passive dev Hp Fp) as [uid ->].
      reflexivity.
    + cbn [rbind]. destruct (find (has_mac mac) active) as [dev|] eqn:Fa.
      * destruct (find_entry_uid mac active dev Ha Fa) as [uid ->].
        reflexivity.
      * reflexivity.
  - intros dev Hfind. unfold resolve. rewrite Hfind.
    destruct (find_entry_uid mac _ dev Hall Hfind) as [uid Huid]. eauto.
  - intros Hfind. unfold resolve. rewrite Hfind. reflexivity.
  - intros dev Hp Ha. unfold resolve. rewrite find_app, Hp, Ha. reflexivity.
Qed.

Lemma get_device_uid_first_match_witness :
  let mac := py "AA:BB:CC:DD:EE:FF" in
  let passive := [device (py "11:22:33:44:55:66") (py "landevice1")] in
  let active := [device (py "aa:bb:cc:dd:ee:ff") (py "landevice2");
                 device mac (py "landevice3");
                 device mac (py "landevice4")] in
  get_device_uid lab home_client a_sid (VStr mac)
    (start [Ok (inventory passive active)])
  = (Ok (VStr (py "landevice3")),
     @State lab []
       [Http (Request POST (url_data home_client)
                (Some (netdev_payload a_sid)) (VBool true))]).
Proof.
  intros mac passive active.
  refine (proj1
    (get_device_uid_first_match lab home_client a_sid mac
       (start [Ok (inventory passive active)]) _ (inventory passive active)
       _ _ passive active _ _ _ _ _ _)); reflexivity.
Defined.

Example get_device_uid_unknown :
  fst (get_device_uid lab home_client a_sid (VStr (py "AA:BB:CC:DD:EE:FF"))
         (start [Ok (inventory [] [device (py "aa:bb:cc:dd:ee:ff")
                                     (py "landevice2")])]))
  = Raise (not_found (py "AA:BB:CC:DD:EE:FF")).
Proof. reflexivity. Qed.

(** ** The firmware query *)

Lemma split_from_token (s cur : str) :
  cur <> [] ->
  exists rest, split_from cur s = (rev cur ++ take_token s) :: rest.
Proof.
  revert cur; induction s as [|c s IH]; intros cur Hcur.
  - destruct cur; [congruence|]. simpl split_from. simpl take_token.
    rewrite app_nil_r. eauto.
  - simpl. destruct (is_space c).
    + destruct cur; [congruence|]. rewrite app_nil_r. eauto.
    + destruct (IH (c :: cur)) as [rest E]; [discriminate|].
      rewrite E. simpl rev. rewrite <- app_assoc. simpl. eauto.
Qed.

Lemma first_split (s : str) :
  first (split s)
  = match first_token s with
    | Some t => Ok t
    | None => Raise IndexError
    end.
Proof.
  unfold split, first_token. induction s as [|c s IH]; [reflexivity|].
  simpl. destruct (is_space c) eqn:Ec; [exact IH|].
  destruct (split_from_token s [c]) as [rest E]; [discriminate|].
  rewrite E. simpl. rewrite Ec. reflexivity.
Qed.

Lemma nspver_field_raises (data : value) (e : exn) :
  nspver_field data = Raise e -> e = TypeError \/ exists k, e = KeyError k.
Proof.
  assert (G : forall v k e', getitem v k = Raise e' ->
                             e' = TypeError \/ exists k', e' = KeyError k').
  { intros v k e' H. destruct v; simpl in H; try (injection H as <-; auto).
    destruct (lookup k items); [discriminate|].
    injection H as <-. eauto. }
  unfold nspver_field.
  destruct (getitem data (py "data")) as [d|e1] eqn:E1; cbn [rbind].
  - destruct (getitem d (py "fritzos")) as [f|e2] eqn:E2; cbn [rbind].
    + apply G.
    + intros H; injection H as <-. eapply G; eauto.
  - intros H; injection H as <-. eapply G; eauto.
Qed.

(** C6, as amended: once the firmware query is answered with a body
    that parses, [get_firmware_version] returns the first
    whitespace-delimited token of [data.fritzos.nspver] when that field
    is a string with a token; it returns ["0.0"] when a key on the path
    is missing from its object or the string has no token; and it raises
    when a value on the path is not an object ([TypeError]) or the field
    is not a string ([AttributeError]). *)
Theorem get_firmware_version_fallback (env : Env) (self : FritzBoxClient)
  (sid : str) (st st' : state env) (r : response) (data : value) :
  _make_request env (py "post") (url_data self) (Some (overview_payload sid))
    (verify_ssl self) st = (Ok (Some r), st') ->
  json r = Some data ->
  (forall s t,
      nspver_field data = Ok (VStr s) -> first_token s = Some t ->
      get_firmware_version env self sid st = (Ok t, st'))
  /\ (forall s,
         nspver_field data = Ok (VStr s) -> first_token s = None ->
         get_firmware_version env self sid st = (Ok (py "0.0"), st'))
  /\ (forall k,
         nspver_field data = Raise (KeyError k) ->
         get_firmware_version env self sid st = (Ok (py "0.0"), st'))
  /\ (nspver_field data = Raise TypeError ->
      get_firmware_version env self sid st = (Raise TypeError, st'))
  /\ (forall v,
         nspver_field data = Ok v -> (forall s, v <> VStr s) ->
         get_firmware_version env self sid st = (Raise AttributeError, st')).
Proof.
  intros Hreq Hjson.
  assert (E : get_firmware_version env self sid st
              = match rbind (nspver_field data)
                        (fun nspver =>
                           rbind (split_method nspver)
                             (fun tokens => first tokens)) with
                | Raise (KeyError _) | Raise IndexError => (Ok (py "0.0"), st')
                | other => (other, st')
                end).
  { unfold get_firmware_version, except_key_index.
    rewrite (bind_ok env _ _ _ _ _ Hreq).
    unfold lift, response_json. rewrite rbind_attr_some, Hjson.
    cbn [rbind].
    destruct (rbind (nspver_field data) _) as [t|e]; [reflexivity|].
    destruct e; reflexivity. }
  rewrite E. repeat split.
  - intros s t -> Ht. cbn [rbind split_method]. rewrite first_split, Ht.
    reflexivity.
  - intros s -> Ht. cbn [rbind split_method]. rewrite first_split, Ht.
    reflexivity.
  - intros k ->. reflexivity.
  - intros ->. reflexivity.
  - intros v -> Hv. cbn [rbind].
    destruct v; try reflexivity. exfalso. eapply Hv. reflexivity.
Qed.

Lemma get_firmware_version_fallback_witness :
  fst (get_firmware_version lab home_client a_sid
         (start [Ok (overview (py "7.57 (Labor)"))])) = Ok (py "7.57")
  /\ fst (get_firmware_version lab home_client a_sid
            (start [Ok (overview (py "  "))])) = Ok (py "0.0")
  /\ fst (get_firmware_version lab home_client a_sid
            (start [Ok (json_response (VDict [(py "data", VDict [])]))]))
     = Ok (py "0.0").
Proof.
  split; [|split].
  - destruct (get_firmware_version_fallback lab home_client a_sid
                (start [Ok (overview (py "7.57 (Labor)"))])
                (@State lab []
                   [Http (Request POST (url_data home_client)
                            (Some (overview_payload a_sid)) (VBool true))])
                (overview (py "7.57 (Labor)"))
                (VDict [(py "data",
                         VDict [(py "fritzos",
                                 VDict [(py "nspver",
                                         VStr (py "7.57 (Labor)"))])])])
                eq_refl eq_refl) as (H & _).
    rewrite (H (py "7.57 (Labor)") (py "7.57") eq_refl eq_refl).
    reflexivity.
  - destruct (get_firmware_version_fallback lab home_client a_sid
                (start [Ok (overview (py "  "))])
                (@State lab []
                   [Http (Request POST (url_data home_client)
                            (Some (overview_payload a_sid)) (VBool true))])
                (overview (py "  "))
                (VDict [(py "data",
                         VDict [(py "fritzos",
                                 VDict [(py "nspver", VStr (py "  "))])])])
                eq_refl eq_refl) as (_ & H & _).
    rewrite (H (py "  ") eq_refl eq_refl). reflexivity.
  - destruct (get_firmware_version_fallback lab home_client a_sid
                (start [Ok (json_response (VDict [(py "data", VDict [])]))])
                (@State lab []
                   [Http (Request POST (url_data home_client)
                            (Some (overview_payload a_sid)) (VBool true))])
                (json_response (VDict [(py "data", VDict [])]))
                (VDict [(py "data", VDict [])])
                eq_refl eq_refl) as (_ & _ & H & _).
    rewrite (H (py "fritzos") eq_refl). reflexivity.
Defined.

(** C6 as stated fails: a response whose [data] member is [null] lacks
    the field, yet the query raises [TypeError] instead of returning
    ["0.0"]; so does one whose [nspver] is a number, with
    [AttributeError]. *)
Lemma get_firmware_version_null_data :
  fst (get_firmware_version lab home_client a_sid
         (start [Ok (json_response (VDict [(py "data", VNone)]))]))
  = Raise TypeError
  /\ fst (get_firmware_version lab home_client a_sid
            (start [Ok (json_response
                          (VDict [(py "data",
                                   VDict [(py "fritzos",
                                           VDict [(py "nspver",
                                                   VInt 7)])])]))]))
     = Raise AttributeError.
Proof. split; reflexivity. Qed.

(** ** Configuration *)

Lemma missing_fields_dict (items : list (str * value)) (fields : list str) :
  missing_fields (VDict items) fields
  = Ok (filter (fun field =>
                  match lookup field items with
                  | None => true
                  | Some _ => false
                  end) fields).
Proof.
  induction fields as [|f rest IH]; [reflexivity|].
  cbn [missing_fields contains rbind filter]. rewrite IH. cbn [rbind].
  destruct (lookup f items); reflexivity.
Qed.

Lemma lookup_update_other (k k' : str) (v : value)
  (items : list (str * value)) :
  k <> k' -> lookup k (update k' v items) = lookup k items.
Proof.
  intros Hk. induction items as [|[k0 v0] rest IH]; simpl.
  - assert (E : str_eqb k' k = false) by (apply str_eqb_neq; congruence).
    rewrite E. reflexivity.
  - destruct (str_eqb k0 k') eqn:E0; simpl.
    + apply str_eqb_eq in E0. subst k0.
      assert (E : str_eqb k' k = false) by (apply str_eqb_neq; congruence).
      rewrite E. reflexivity.
    + rewrite IH. reflexivity.
Qed.

Lemma message_lists (prefix sep k : str) (names : list str) :
  In k names -> str_contains (prefix ++ join sep names) k = true.
Proof.
  intros Hin. destruct (join_contains sep k names Hin) as (a & b & E).
  rewrite E, app_assoc. apply str_contains_app.
Qed.

(** C7: [load_config] fails on a configuration object that lacks any
    of [host], [port], [username], [devices], with a [ValueError] whose
    message names every missing key; [validate_device] fails on a device
    name that is not in the [devices] mapping, with a [ValueError] whose
    message lists every known name; and [main] reports that failure with
    exit code 1 leaving world and trace as they were, so before any
    request. *)
Theorem config_failures (env : Env) :
  (forall path st items,
      file_at env path (world st) = Parsed (VDict items) ->
      absent_keys items <> [] ->
      load_config env path st
      = (Raise (ValueError (missing_message (absent_keys items))), st)
      /\ forall k, In k (absent_keys items) ->
                   str_contains (missing_message (absent_keys items)) k = true)
  /\ (forall config devices device_name,
         getitem config (py "devices") = Ok (VDict devices) ->
         lookup device_name devices = None ->
         validate_device config device_name
         = Raise (ValueError (unknown_message device_name (map fst devices)))
         /\ forall k, In k (map fst devices) ->
                      str_contains
                        (unknown_message device_name (map fst devices)) k
                      = true)
  /\ (forall args st items devices,
         file_at env (arg_config args) (world st) = Parsed (VDict items) ->
         absent_keys items = [] ->
         lookup (py "devices") items = Some (VDict devices) ->
         lookup (arg_device args) devices = None ->
         exists failure,
           main env args st = (Ok failure, st)
           /\ failure = ConfigurationError
                          (ValueError (unknown_message (arg_device args)
                                         (map fst devices)))
           /\ exit_code failure = 1%Z).
Proof.
  assert (V : forall config devices device_name,
             getitem config (py "devices") = Ok (VDict devices) ->
             lookup device_name devices = None ->
             validate_device config device_name
             = Raise (ValueError
                        (unknown_message device_name (map fst devices)))).
  { intros config devices name Hdev Hname. unfold validate_device.
    rewrite Hdev. cbn [rbind contains]. rewrite Hname. reflexivity. }
  split; [|split].
  - intros path st items Hfile Hmissing. split.
    + unfold load_config. rewrite Hfile, missing_fields_dict.
      fold (absent_keys items). cbn [rbind].
      destruct (absent_keys items); [congruence | reflexivity].
    + intros k Hk. apply message_lists. exact Hk.
  - intros config devices name Hdev Hname. split; [apply V; assumption|].
    intros k Hk. unfold unknown_message. rewrite !app_assoc.
    apply message_lists. exact Hk.
  - intros args st items devices Hfile Hnone Hdev Hname.
    eexists. split; [|split; [reflexivity|reflexivity]].
    unfold main, bind at 1. unfold load_config.
    rewrite Hfile, missing_fields_dict. fold (absent_keys items).
    rewrite Hnone. cbn [rbind]. unfold bind at 1, lift at 1.
    cbn [setitem]. unfold bind at 1, lift at 1.
    rewrite (V _ devices (arg_device args)); [reflexivity| |exact Hname].
    cbn [getitem]. rewrite lookup_update_other by discriminate.
    rewrite Hdev. reflexivity.
Qed.

Lemma config_failures_witness :
  load_config home (py "broken.json") (@State home [] [])
  = (Raise (ValueError (py "Missing required fields: port, username, devices")),
     @State home [] [])
  /\ validate_device home_config (py "printer")
     = Raise (ValueError (py "Unknown device: printer" ++ [10]
                            ++ py "Available devices: mypc"))
  /\ exists failure,
      main home (Args (py "printer") (py "wakeup.json") false)
        (@State home [] []) = (Ok failure, @State home [] [])
      /\ exit_code failure = 1%Z.
Proof.
  destruct (config_failures home) as (H1 & H2 & H3). split; [|split].
  - apply (H1 (py "broken.json") (@State home [] [])
              [(py "host", VStr (py "192.168.1.1"))]).
    + reflexivity.
    + discriminate.
  - apply (H2 home_config [(py "mypc", VStr (py "AA:BB:CC:DD:EE:FF"))]
              (py "printer")); reflexivity.
  - destruct (H3 (Args (py "printer") (py "wakeup.json") false)
                (@State home [] [])
                [(py "host", VStr (py "192.168.1.1")); (py "port", VInt 49443);
                 (py "username", VStr (py "admin"));
                 (py "devices",
                  VDict [(py "mypc", VStr (py "AA:BB:CC:DD:EE:FF"))])]
                [(py "mypc", VStr (py "AA:BB:CC:DD:EE:FF"))]
                eq_refl eq_refl eq_refl eq_refl) as (failure & Hm & _ & Hc).
    exists failure. split; [exact Hm | exact Hc].
Defined.

(** ** End to end *)

Example main_wakes_mypc :
  fst (main home (Args (py "mypc") (py "wakeup.json") false)
         (@State home successful_run [])) = Ok Sent.
Proof. vm_compute. reflexivity. Qed.

Example main_counts_requests :
  List.length
    (trace (snd (main home (Args (py "mypc") (py "wakeup.json") false)
                   (@State home successful_run [])))) = 6%nat.
Proof. vm_compute. reflexivity. Qed.

(** * Further properties of the code *)

(** ** The transport wrapper, continued *)

Lemma make_request_get (env : Env) url data verify :
  _make_request env (py "get") url data verify = send env GET url data verify.
Proof. reflexivity. Qed.

Lemma send_ok (env : Env) v url data verify st r w' :
  http env (Request v url data verify) (world st) = (Ok r, w') ->
  send env v url data verify st
  = (Ok (Some r), State w' (trace st ++ [Http (Request v url data verify)])).
Proof. intros H. unfold send. rewrite H. reflexivity. Qed.

Lemma send_not_ssl (env : Env) v url data verify st :
  fst (send env v url data verify st) <> Raise SSLError.
Proof.
  unfold send. destruct (http env _ (world st)) as [[resp|e] w'].
  - simpl. discriminate.
  - destruct e; simpl; discriminate.
Qed.

(** [_make_request] never lets the transport's [SSLError] out: for
    [get] as for [post] it comes out as a [ConnectionError] whose message
    names the [--ssl-no-verify] flag, while any other exception of the
    transport comes out unchanged; in both cases the request has been
    recorded. *)
Theorem make_request_ssl (env : Env) (url : str)
  (data : option (list (str * value))) (verify : value) (st : state env) :
  (forall method,
      fst (_make_request env method url data verify st) <> Raise SSLError)
  /\ str_contains ssl_message (py "--ssl-no-verify") = true
  /\ (forall method v,
         (lower env method = py "get" /\ v = GET)
         \/ (lower env method = py "post" /\ v = POST) ->
         (forall w',
             http env (Request v url data verify) (world st)
             = (Raise SSLError, w') ->
             _make_request env method url data verify st
             = (Raise (ConnectionError ssl_message),
                State w' (trace st ++ [Http (Request v url data verify)])))
         /\ (forall e w',
                e <> SSLError ->
                http env (Request v url data verify) (world st)
                = (Raise e, w') ->
                _make_request env method url data verify st
                = (Raise e,
                   State w' (trace st
                               ++ [Http (Request v url data verify)])))).
Proof.
  split; [|split].
  - intros method. unfold _make_request.
    destruct (str_eqb (lower env method) (py "get")); [apply send_not_ssl|].
    destruct (str_eqb (lower env method) (py "post")); [apply send_not_ssl|].
    simpl. discriminate.
  - vm_compute. reflexivity.
  - intros method v Hm.
    assert (E : _make_request env method url data verify
                = send env v url data verify).
    { unfold _make_request.
      destruct Hm as [[-> ->]|[-> ->]]; reflexivity. }
    rewrite E. split.
    + intros w' H. unfold send. rewrite H. reflexivity.
    + intros e w' He H. unfold send. rewrite H.
      destruct e; try reflexivity. congruence.
Qed.

Lemma make_request_ssl_witness :
  _make_request lab (py "GET") (url_login home_client) None (VBool true)
    (start [Raise SSLError; Ok (wake_reply (py "ok"))])
  = (Raise (ConnectionError ssl_message),
     @State lab [Ok (wake_reply (py "ok"))]
       [Http (Request GET (url_login home_client) None (VBool true))])
  /\ _make_request lab (py "post") (url_data home_client) None (VBool true)
       (start [Raise KeyboardInterrupt])
     = (Raise KeyboardInterrupt,
        @State lab []
          [Http (Request POST (url_data home_client) None (VBool true))]).
Proof.
  split.
  - refine (proj1 (proj2 (proj2 (make_request_ssl lab (url_login home_client)
                                   None (VBool true)
                                   (start [Raise SSLError;
                                           Ok (wake_reply (py "ok"))])))
                     (py "GET") GET _) _ _).
    + left. split; reflexivity.
    + reflexivity.
  - refine (proj2 (proj2 (proj2 (make_request_ssl lab (url_data home_client)
                                   None (VBool true)
                                   (start [Raise KeyboardInterrupt])))
                     (py "post") POST _) KeyboardInterrupt _ _ _).
    + right. split; reflexivity.
    + discriminate.
    + reflexivity.
Defined.

(** ** The challenge *)

(** [_get_challenge] sends one [GET] to the login URL, without form
    data; on an answer it returns the first text of a [Challenge] element
    in document order, raises [IndexError] when there is none and
    [XMLSyntaxError] when the body is no XML. *)
Theorem get_challenge_outcome (env : Env) (self : FritzBoxClient)
  (st : state env) :
  trace (snd (_get_challenge env self st))
  = trace st ++ [Http (Request GET (url_login self) None (verify_ssl self))]
  /\ (forall r w',
         http env (Request GET (url_login self) None (verify_ssl self))
           (world st) = (Ok r, w') ->
         fst (_get_challenge env self st)
         = match xml r with
           | None => Raise XMLSyntaxError
           | Some tree =>
               match xpath_text (py "Challenge") tree with
               | c :: _ => Ok c
               | [] => Raise IndexError
               end
           end).
Proof.
  unfold _get_challenge. rewrite make_request_get. split.
  - unfold bind.
    pose proof (send_trace env GET (url_login self) None (verify_ssl self) st)
      as Ht.
    destruct (send env GET (url_login self) None (verify_ssl self) st)
      as [[r|e] st1]; simpl in Ht |- *; exact Ht.
  - intros r w' H. unfold bind. rewrite (send_ok env _ _ _ _ _ _ _ H).
    unfold lift, etree_XML. rewrite rbind_attr_some. simpl.
    destruct (xml r) as [tree|]; [|reflexivity]. simpl.
    destruct (xpath_text (py "Challenge") tree); reflexivity.
Qed.

Lemma get_challenge_outcome_witness :
  fst (_get_challenge lab home_client
         (start [Ok (xml_response (Element (py "SessionInfo")
                                     [Element (py "Rights") []]))]))
  = Raise IndexError.
Proof.
  apply (proj2 (get_challenge_outcome lab home_client
                  (start [Ok (xml_response (Element (py "SessionInfo")
                                              [Element (py "Rights") []]))]))
           (xml_response (Element (py "SessionInfo")
                            [Element (py "Rights") []])) []).
  reflexivity.
Defined.

(** ** The firmware query, continued *)

Lemma take_token_no_space (s : str) : no_space (take_token s) = true.
Proof.
  unfold no_space. induction s as [|c s IH]; [reflexivity|].
  simpl. destruct (is_space c) eqn:E; [reflexivity|].
  simpl. rewrite E. exact IH.
Qed.

Lemma first_token_shape (s t : str) :
  first_token s = Some t -> t <> [] /\ no_space t = true.
Proof.
  unfold first_token. pose proof (take_token_no_space (drop_spaces s)) as H.
  destruct (take_token (drop_spaces s)) as [|c t']; [discriminate|].
  intros E; injection E as <-. split; [discriminate | exact H].
Qed.

Lemma firmware_probe_trace (env : Env) (self : FritzBoxClient) (sid : str)
  (st : state env) :
  trace (snd (get_firmware_version env self sid st))
  = trace st ++ [probe_event self sid].
Proof.
  unfold get_firmware_version, except_key_index. rewrite make_request_post.
  unfold bind.
  pose proof (send_trace env POST (url_data self)
                (Some (overview_payload sid)) (verify_ssl self) st) as Ht.
  destruct (send env POST (url_data self) (Some (overview_payload sid))
              (verify_ssl self) st) as [[r|e] st1]; simpl in Ht.
  - unfold lift. destruct (rbind (response_json r) _) as [t|e];
      [exact Ht|]. destruct e; exact Ht.
  - destruct e; exact Ht.
Qed.

(** What [get_firmware_version] does with an answer whose body parses. *)
Lemma firmware_version_answer (env : Env) (self : FritzBoxClient)
  (sid : str) (st st' : state env) (r : response) (data : value) :
  _make_request env (py "post") (url_data self) (Some (overview_payload sid))
    (verify_ssl self) st = (Ok (Some r), st') ->
  json r = Some data ->
  get_firmware_version env self sid st
  = match rbind (nspver_field data)
            (fun nspver =>
               rbind (split_method nspver) (fun tokens => first tokens)) with
    | Raise (KeyError _) | Raise IndexError => (Ok (py "0.0"), st')
    | other => (other, st')
    end.
Proof.
  intros Hreq Hjson. unfold get_firmware_version, except_key_index.
  rewrite (bind_ok env _ _ _ _ _ Hreq).
  unfold lift, response_json. rewrite rbind_attr_some, Hjson. cbn [rbind].
  destruct (rbind (nspver_field data) _) as [t|e]; [reflexivity|].
  destruct e; reflexivity.
Qed.

Lemma except_key_index_outcome {env : Env} {A} (body : M env A) (x : A)
  (st : state env) :
  (forall k, fst (except_key_index body (ret x) st) <> Raise (KeyError k))
  /\ fst (except_key_index body (ret x) st) <> Raise IndexError
  /\ (forall a, fst (except_key_index body (ret x) st) = Ok a ->
                fst (body st) = Ok a \/ a = x).
Proof.
  unfold except_key_index, ret.
  destruct (body st) as [[a|e] st1]; simpl.
  - repeat split; try discriminate. auto.
  - destruct e; simpl; repeat split; try discriminate;
      intros a E; injection E as <-; auto.
Qed.

Lemma firmware_body_token (r : option response) (t : str) :
  rbind (response_json r)
    (fun data =>
       rbind (nspver_field data)
         (fun nspver =>
            rbind (split_method nspver) (fun tokens => first tokens)))
  = Ok t ->
  t <> [] /\ no_space t = true.
Proof.
  destruct (response_json r) as [data|e]; cbn [rbind]; [|discriminate].
  destruct (nspver_field data) as [v|e]; cbn [rbind]; [|discriminate].
  destruct v; cbn [split_method rbind]; try discriminate.
  rewrite first_split. destruct (first_token s) as [t'|] eqn:Et;
    [|discriminate].
  intros E; injection E as <-. exact (first_token_shape s t' Et).
Qed.

(** [get_firmware_version] never raises [KeyError] or [IndexError],
    whoever raised them inside the [try], and a version it returns is
    never empty and holds no whitespace. *)
Theorem firmware_version_token (env : Env) (self : FritzBoxClient)
  (sid : str) (st : state env) :
  (forall k, fst (get_firmware_version env self sid st) <> Raise (KeyError k))
  /\ fst (get_firmware_version env self sid st) <> Raise IndexError
  /\ (forall t,
         fst (get_firmware_version env self sid st) = Ok t ->
         t <> [] /\ no_space t = true).
Proof.
  unfold get_firmware_version.
  match goal with
  | |- context [except_key_index ?body (ret ?x) st] =>
      destruct (except_key_index_outcome body x st) as (H1 & H2 & H3)
  end.
  split; [exact H1|]. split; [exact H2|].
  intros t Ht. destruct (H3 t Ht) as [Hbody| ->];
    [|split; [discriminate | reflexivity]].
  unfold bind in Hbody.
  destruct (_make_request env (py "post") (url_data self)
              (Some (overview_payload sid)) (verify_ssl self) st)
    as [[r|e] st1]; [|discriminate].
  unfold lift in Hbody. simpl in Hbody.
  exact (firmware_body_token r t Hbody).
Qed.

(** ** The wake request, continued *)

Lemma send_wakeup_after_probe (env : Env) (self : FritzBoxClient)
  (sid : str) (uid : value) (st st1 : state env) (fw : str) (older : bool) :
  get_firmware_version env self sid st = (Ok fw, st1) ->
  version_le env fw (py "7.24") = Ok older ->
  trace (snd (send_wakeup env self sid uid st))
  = trace st1
      ++ [wake_event self sid uid
            (if older then py "edit_device2" else py "edit_device")].
Proof.
  intros Hfw Hle. unfold send_wakeup. rewrite (bind_ok env _ _ _ _ _ Hfw).
  unfold bind at 1, lift at 1. rewrite Hle.
  rewrite make_request_post. unfold bind at 1.
  match goal with
  | |- context [send env POST ?u ?d ?v st1] =>
      pose proof (send_trace env POST u d v st1) as Ht;
      destruct (send env POST u d v st1) as [[r|e] st2]
  end; simpl in Ht.
  - unfold bind, lift. destruct (wake_success r) as [[|]|e]; simpl;
      rewrite Ht; destruct older; reflexivity.
  - simpl. rewrite Ht. destruct older; reflexivity.
Qed.

(** [send_wakeup] always sends the firmware probe first, and after it
    at most one request: the wake request, with page [edit_device] or
    [edit_device2] and the session, device and button fields of the
    payload; if it returns at all, the wake request was sent. *)
Theorem send_wakeup_requests (env : Env) (self : FritzBoxClient)
  (sid : str) (uid : value) (st : state env) :
  let sent := trace (snd (send_wakeup env self sid uid st)) in
  (sent = trace st ++ [probe_event self sid]
   \/ sent = trace st ++ [probe_event self sid;
                          wake_event self sid uid (py "edit_device")]
   \/ sent = trace st ++ [probe_event self sid;
                          wake_event self sid uid (py "edit_device2")])
  /\ (forall b, fst (send_wakeup env self sid uid st) = Ok b ->
                sent <> trace st ++ [probe_event self sid]).
Proof.
  intros sent. subst sent.
  pose proof (firmware_probe_trace env self sid st) as Hprobe.
  destruct (get_firmware_version env self sid st) as [[fw|e] st1] eqn:Hfw;
    simpl in Hprobe.
  - destruct (version_le env fw (py "7.24")) as [older|e] eqn:Hle.
    + rewrite (send_wakeup_after_probe env self sid uid st st1 fw older
                 Hfw Hle), Hprobe, <- app_assoc.
      split.
      * destruct older; simpl; auto.
      * intros b _ H. apply app_inv_head in H. destruct older; discriminate.
    + unfold send_wakeup. rewrite (bind_ok env _ _ _ _ _ Hfw).
      unfold bind, lift. rewrite Hle. simpl. split; [auto|].
      intros b H. discriminate.
  - unfold send_wakeup. rewrite (bind_raise env _ _ _ _ _ Hfw). simpl.
    split; [auto|]. intros b H. discriminate.
Qed.

(** When the answer to the firmware probe lacks a key on the path
    [data.fritzos.nspver], or the field holds no token, the wake request
    goes out with the page of old firmware, [edit_device2]. *)
Theorem send_wakeup_fallback_page (env : Env) (self : FritzBoxClient)
  (sid : str) (uid : value) (st st1 : state env) (r : response)
  (data : value) :
  _make_request env (py "post") (url_data self) (Some (overview_payload sid))
    (verify_ssl self) st = (Ok (Some r), st1) ->
  json r = Some data ->
  (exists k, nspver_field data = Raise (KeyError k))
  \/ (exists s, nspver_field data = Ok (VStr s) /\ first_token s = None) ->
  trace (snd (send_wakeup env self sid uid st))
  = trace st1 ++ [wake_event self sid uid (py "edit_device2")].
Proof.
  intros Hreq Hjson Hmiss.
  assert (Hfw : get_firmware_version env self sid st = (Ok (py "0.0"), st1)).
  { rewrite (firmware_version_answer env self sid st st1 r data Hreq Hjson).
    destruct Hmiss as [[k ->]|(s & -> & Hs)]; [reflexivity|].
    cbn [rbind split_method]. rewrite first_split, Hs. reflexivity. }
  apply (send_wakeup_after_probe env self sid uid st st1 (py "0.0") true Hfw).
  reflexivity.
Qed.

Lemma send_wakeup_fallback_page_witness :
  trace (snd (send_wakeup lab home_client a_sid a_uid
                (start [Ok (json_response (VDict [(py "data", VDict [])]));
                        Ok (wake_reply (py "ok"))])))
  = [probe_event home_client a_sid;
     wake_event home_client a_sid a_uid (py "edit_device2")].
Proof.
  apply (send_wakeup_fallback_page lab home_client a_sid a_uid
           (start [Ok (json_response (VDict [(py "data", VDict [])]));
                   Ok (wake_reply (py "ok"))])
           (@State lab [Ok (wake_reply (py "ok"))]
              [probe_event home_client a_sid])
           (json_response (VDict [(py "data", VDict [])]))
           (VDict [(py "data", VDict [])]) eq_refl eq_refl).
  left. exists (py "fritzos"). reflexivity.
Defined.

(** ** Device resolution, continued *)

Lemma scan_devices_broken (env : Env) (mac_address : value)
  (before after : list value) (broken : value) (e : exn) :
  scan_devices env mac_address before = Ok None ->
  getitem broken (py "mac") = Raise e ->
  scan_devices env mac_address (before ++ broken :: after) = Raise e.
Proof.
  intros Hbefore Hbroken. induction before as [|x before IH].
  - simpl. rewrite Hbroken. reflexivity.
  - simpl in Hbefore |- *.
    destruct (getitem x (py "mac")) as [m|e']; [|discriminate].
    cbn [rbind] in Hbefore |- *.
    destruct (py_eq env m mac_address).
    + destruct (getitem x (py "UID")); discriminate.
    + apply IH. exact Hbefore.
Qed.

(** Both groups are read before either is scanned: when the inventory
    lacks one of [passive] and [active], [get_device_uid] raises what the
    subscript raises, even if the other group holds the device; and an
    entry without a [mac] field that comes before the first match, in the
    passive group or, the passive group scanned without a match, in the
    active group, ends the lookup with its [KeyError]. *)
Theorem get_device_uid_needs_both_groups (env : Env) (self : FritzBoxClient)
  (sid : str) (mac_address : value) (st st' : state env) (r : response)
  (data d : value) :
  _make_request env (py "post") (url_data self) (Some (netdev_payload sid))
    (verify_ssl self) st = (Ok (Some r), st') ->
  json r = Some data ->
  getitem data (py "data") = Ok d ->
  (forall e,
      getitem d (py "passive") = Raise e ->
      get_device_uid env self sid mac_address st = (Raise e, st'))
  /\ (forall passive e,
         getitem d (py "passive") = Ok passive ->
         getitem d (py "active") = Raise e ->
         get_device_uid env self sid mac_address st = (Raise e, st'))
  /\ (forall passive active before broken after e,
         getitem d (py "passive") = Ok passive ->
         getitem d (py "active") = Ok active ->
         iterate passive = Ok (before ++ broken :: after) ->
         scan_devices env mac_address before = Ok None ->
         getitem broken (py "mac") = Raise e ->
         get_device_uid env self sid mac_address st = (Raise e, st'))
  /\ (forall passive active devices before broken after e,
         getitem d (py "passive") = Ok passive ->
         getitem d (py "active") = Ok active ->
         iterate passive = Ok devices ->
         scan_devices env mac_address devices = Ok None ->
         iterate active = Ok (before ++ broken :: after) ->
         scan_devices env mac_address before = Ok None ->
         getitem broken (py "mac") = Raise e ->
         get_device_uid env self sid mac_address st = (Raise e, st')).
Proof.
  intros Hreq Hjson Hdata.
  assert (E : get_device_uid env self sid mac_address st
              = (rbind (getitem d (py "passive")) (fun passive =>
                 rbind (getitem d (py "active")) (fun active =>
                 rbind (scan_lists env mac_address [passive; active])
                   (fun found =>
                      match found with
                      | Some uid => Ok uid
                      | None =>
                          Raise (LookupError
                                   (py "Device with MAC address "
                                      ++ format env mac_address
                                      ++ py " not found in FritzBox"))
                      end))), st')).
  { unfold get_device_uid. rewrite (bind_ok env _ _ _ _ _ Hreq).
    unfold lift, response_json. rewrite rbind_attr_some, Hjson.
    cbn [rbind]. rewrite Hdata. cbn [rbind]. reflexivity. }
  rewrite E. split; [|split; [|split]].
  - intros e ->. reflexivity.
  - intros passive e -> ->. reflexivity.
  - intros passive active before broken after e -> -> Hit Hbefore Hbroken.
    cbn [rbind scan_lists]. rewrite Hit. cbn [rbind].
    rewrite (scan_devices_broken env mac_address before after broken e
               Hbefore Hbroken).
    reflexivity.
  - intros passive active devices before broken after e -> -> Hp Hnone Hit
      Hbefore Hbroken.
    cbn [rbind scan_lists]. rewrite Hp. cbn [rbind]. rewrite Hnone.
    cbn [rbind]. rewrite Hit. cbn [rbind].
    rewrite (scan_devices_broken env mac_address before after broken e
               Hbefore Hbroken).
    reflexivity.
Qed.

Lemma get_device_uid_needs_both_groups_witness :
  let mac := py "AA:BB:CC:DD:EE:FF" in
  let nameless := VDict [(py "UID", VStr (py "landevice9"))] in
  let only_passive :=
    json_response
      (VDict [(py "data",
               VDict [(py "passive",
                       VList [device mac (py "landevice3")])])]) in
  let broken_active :=
    inventory [device (py "11:22:33:44:55:66") (py "landevice1")]
      [nameless; device mac (py "landevice3")] in
  get_device_uid lab home_client a_sid (VStr mac) (start [Ok only_passive])
  = (Raise (KeyError (py "active")),
     @State lab []
       [Http (Request POST (url_data home_client)
                (Some (netdev_payload a_sid)) (VBool true))])
  /\ get_device_uid lab home_client a_sid (VStr mac)
       (start [Ok broken_active])
     = (Raise (KeyError (py "mac")),
        @State lab []
          [Http (Request POST (url_data home_client)
                   (Some (netdev_payload a_sid)) (VBool true))]).
Proof.
  intros mac nameless only_passive broken_active. split.
  - refine (proj1 (proj2
      (get_device_uid_needs_both_groups lab home_client a_sid (VStr mac)
         (start [Ok only_passive]) _ only_passive _ _ _ _ _)) _ _ _ _);
      reflexivity.
  - refine (proj2 (proj2 (proj2
      (get_device_uid_needs_both_groups lab home_client a_sid (VStr mac)
         (start [Ok broken_active]) _ broken_active _ _ _ _ _)))
      _ _ _ [] nameless [device mac (py "landevice3")] _ _ _ _ _ _ _ _);
      reflexivity.
Defined.

(** ** Version comparison, continued *)

Lemma tuple_le_trans (a b c : list N) :
  Version.tuple_le a b = true -> Version.tuple_le b c = true ->
  Version.tuple_le a c = true.
Proof.
  revert b c; induction a as [|x a IH]; intros b c; [reflexivity|].
  destruct b as [|y b]; [discriminate|].
  destruct c as [|z c]; [destruct (y :: b); discriminate|].
  cbn [Version.tuple_le].
  destruct (N.ltb_spec x y), (N.ltb_spec y x), (N.ltb_spec y z),
    (N.ltb_spec z y), (N.ltb_spec x z), (N.ltb_spec z x);
    try discriminate; try lia; try reflexivity.
  apply IH.
Qed.

Lemma dotted_le_trans (a b c : list N) :
  Version.dotted_le a b = true -> Version.dotted_le b c = true ->
  Version.dotted_le a c = true.
Proof. rewrite <- !cmpkey_le_dotted. apply tuple_le_trans. Qed.

(** The page choice is monotone in the firmware version: when a
    release gets the old page, every release that is not newer gets it
    too. *)
Theorem old_page_monotone (env : Env) (a b : str) (ra rb : list N) :
  Version.parse_release a = Some ra ->
  Version.parse_release b = Some rb ->
  Version.dotted_le ra rb = true ->
  version_le env b (py "7.24") = Ok true ->
  version_le env a (py "7.24") = Ok true.
Proof.
  intros Ha Hb Hab. rewrite (version_le_release env a ra Ha).
  rewrite (version_le_release env b rb Hb).
  intros H; injection H as H. f_equal.
  exact (dotted_le_trans ra rb [7; 24] Hab H).
Qed.

Lemma old_page_monotone_witness :
  version_le lab (py "6.93.1") (py "7.24") = Ok true.
Proof.
  apply (old_page_monotone lab (py "6.93.1") (py "7.12") [6; 93; 1] [7; 12]);
    reflexivity.
Defined.

(** The major number decides unless it is 7: a release below 7 gets
    the old page and a release above 7 the new one, whatever follows the
    major number. *)
Theorem major_version_decides (env : Env) (fw : str) (major : N)
  (rest : list N) :
  Version.parse_release fw = Some (major :: rest) ->
  (major < 7 -> version_le env fw (py "7.24") = Ok true)
  /\ (7 < major -> version_le env fw (py "7.24") = Ok false).
Proof.
  intros H. rewrite (version_le_release env fw _ H).
  unfold Version.dotted_le. cbn [Version.dotted_cmp].
  destruct (N.compare_spec major 7); split; intros; try lia; reflexivity.
Qed.

Lemma major_version_decides_witness :
  version_le lab (py "8.0") (py "7.24") = Ok false
  /\ version_le lab (py "6.99.99") (py "7.24") = Ok true.
Proof.
  split.
  - apply (proj2 (major_version_decides lab (py "8.0") 8 [0] eq_refl)).
    reflexivity.
  - apply (proj1 (major_version_decides lab (py "6.99.99") 6 [99; 99]
                    eq_refl)).
    reflexivity.
Defined.

(** ** Authentication, continued *)

Lemma get_challenge_ok (env : Env) (self : FritzBoxClient) (st : state env)
  (r : response) (w1 : World env) (tree : node) (ch : str) (rest : list str) :
  http env (Request GET (url_login self) None (verify_ssl self)) (world st)
  = (Ok r, w1) ->
  xml r = Some tree ->
  xpath_text (py "Challenge") tree = ch :: rest ->
  _get_challenge env self st
  = (Ok ch,
     State w1 (trace st
                 ++ [Http (Request GET (url_login self) None
                             (verify_ssl self))])).
Proof.
  intros Hhttp Hxml Hch. unfold _get_challenge. rewrite make_request_get.
  unfold bind. rewrite (send_ok env _ _ _ _ _ _ _ Hhttp).
  unfold lift, etree_XML. rewrite rbind_attr_some, Hxml. cbn [rbind].
  rewrite Hch. reflexivity.
Qed.

Lemma login_exchange_explicit (env : Env) (self : FritzBoxClient)
  (p : value) (st : state env) :
  login_exchange env self (Some p) st
  = bind (_get_challenge env self)
      (fun challenge =>
         bind (lift (_calculate_response env challenge p))
           (fun response =>
              _make_request env (py "get")
                (url_login self ++ py "?username="
                   ++ format env (username self)
                   ++ py "&response=" ++ response)
                None (verify_ssl self))) st.
Proof. reflexivity. Qed.

(** With an explicit string password, [authenticate] sends two [GET]
    requests and nothing else when challenge and password hold no
    surrogate: the challenge fetch, then the login, whose URL ends in the
    challenge, a hyphen and 32 lowercase hexadecimal digits; when
    challenge and password cannot be encoded it stops after the first
    request with [UnicodeEncodeError], and without a [Challenge] text in
    the first answer with [IndexError]. *)
Theorem authenticate_requests (env : Env) (self : FritzBoxClient) (p : str)
  (st : state env) (r : response) (w1 : World env) (tree : node) :
  http env (Request GET (url_login self) None (verify_ssl self)) (world st)
  = (Ok r, w1) ->
  xml r = Some tree ->
  (forall ch rest,
      xpath_text (py "Challenge") tree = ch :: rest ->
      encodable ch = true -> encodable p = true ->
      exists digest,
        List.length digest = 32%nat
        /\ forallb lower_hex digest = true
        /\ trace (snd (authenticate env self (Some (VStr p)) st))
           = trace st
               ++ [Http (Request GET (url_login self) None (verify_ssl self));
                   Http (Request GET
                           (url_login self ++ py "?username="
                              ++ format env (username self)
                              ++ py "&response=" ++ ch ++ py "-" ++ digest)
                           None (verify_ssl self))])
  /\ (xpath_text (py "Challenge") tree = [] ->
      authenticate env self (Some (VStr p)) st
      = (Raise IndexError,
         State w1 (trace st
                     ++ [Http (Request GET (url_login self) None
                                 (verify_ssl self))])))
  /\ (forall ch rest,
         xpath_text (py "Challenge") tree = ch :: rest ->
         Utf16.encode (ch ++ py "-" ++ p) = None ->
         authenticate env self (Some (VStr p)) st
         = (Raise UnicodeEncodeError,
            State w1 (trace st
                        ++ [Http (Request GET (url_login self) None
                                    (verify_ssl self))]))).
Proof.
  intros Hhttp Hxml. split; [|split].
  - intros ch rest Hch Hech Hep.
    assert (Henc : encodable (ch ++ py "-" ++ p) = true).
    { rewrite !encodable_app, Hech, Hep. reflexivity. }
    destruct (encode_total _ Henc) as [bytes Hbytes].
    destruct (hexdigest_form bytes) as [Hlen Hhex].
    exists (MD5.hexdigest bytes). split; [exact Hlen|]. split; [exact Hhex|].
    pose proof (get_challenge_ok env self st r w1 tree ch rest Hhttp Hxml Hch)
      as Hgc.
    assert (Hcalc : _calculate_response env ch (VStr p)
                    = Ok (ch ++ py "-" ++ MD5.hexdigest bytes)).
    { unfold _calculate_response. cbn [format]. rewrite Hbytes. reflexivity. }
    unfold authenticate. unfold bind at 1. rewrite login_exchange_explicit.
    rewrite (bind_ok env _ _ _ _ _ Hgc).
    unfold bind at 1, lift at 1. rewrite Hcalc. rewrite make_request_get.
    match goal with
    | |- context [send env GET ?u ?d ?v ?s] =>
        pose proof (send_trace env GET u d v s) as Ht;
        destruct (send env GET u d v s) as [[resp|e] st2]
    end; simpl in Ht.
    + unfold bind, lift. destruct (extract_sid resp) as [sid|e]; simpl.
      * destruct (str_eqb sid SID_NOAUTH); simpl; rewrite Ht, <- app_assoc;
          reflexivity.
      * rewrite Ht, <- app_assoc. reflexivity.
    + simpl. rewrite Ht, <- app_assoc. reflexivity.
  - intros Hch.
    assert (Hgc : _get_challenge env self st
                  = (Raise IndexError,
                     State w1 (trace st
                                 ++ [Http (Request GET (url_login self) None
                                             (verify_ssl self))]))).
    { unfold _get_challenge. rewrite make_request_get.
      unfold bind. rewrite (send_ok env _ _ _ _ _ _ _ Hhttp).
      unfold lift, etree_XML. rewrite rbind_attr_some, Hxml. cbn [rbind].
      rewrite Hch. reflexivity. }
    unfold authenticate. unfold bind at 1. rewrite login_exchange_explicit.
    rewrite (bind_raise env _ _ _ _ _ Hgc). reflexivity.
  - intros ch rest Hch Henc.
    pose proof (get_challenge_ok env self st r w1 tree ch rest Hhttp Hxml Hch)
      as Hgc.
    unfold authenticate. unfold bind at 1. rewrite login_exchange_explicit.
    rewrite (bind_ok env _ _ _ _ _ Hgc).
    unfold bind at 1, lift at 1. unfold _calculate_response.
    cbn [format]. rewrite Henc. reflexivity.
Qed.

Lemma authenticate_requests_witness :
  (exists digest,
      List.length digest = 32%nat
      /\ forallb lower_hex digest = true
      /\ trace (snd (authenticate lab home_client (Some (VStr (py "secret")))
                       (start (login_script a_sid))))
         = [Http (Request GET (url_login home_client) None (VBool true));
            Http (Request GET
                    (url_login home_client
                       ++ py "?username=admin&response=1234567z-" ++ digest)
                    None (VBool true))])
  /\ authenticate lab home_client (Some (VStr [0xD800]))
       (start (login_script a_sid))
     = (Raise UnicodeEncodeError,
        @State lab [Ok (xml_response (session_info a_sid (py "1234567z")))]
          [Http (Request GET (url_login home_client) None (VBool true))]).
Proof.
  split.
  - destruct (authenticate_requests lab home_client (py "secret")
                (start (login_script a_sid))
                (xml_response (session_info SID_NOAUTH (py "1234567z")))
                [Ok (xml_response (session_info a_sid (py "1234567z")))]
                (session_info SID_NOAUTH (py "1234567z")) eq_refl eq_refl)
      as (H & _).
    destruct (H (py "1234567z") [] eq_refl eq_refl eq_refl)
      as (digest & Hlen & Hhex & Ht).
    exists digest. split; [exact Hlen|]. split; [exact Hhex | exact Ht].
  - refine (proj2 (proj2
      (authenticate_requests lab home_client [0xD800]
         (start (login_script a_sid))
         (xml_response (session_info SID_NOAUTH (py "1234567z")))
         [Ok (xml_response (session_info a_sid (py "1234567z")))]
         (session_info SID_NOAUTH (py "1234567z")) eq_refl eq_refl))
      (py "1234567z") [] eq_refl eq_refl).
Defined.

(** ** Configuration, continued *)

Lemma lookup_update_same (k : str) (v : value) (items : list (str * value)) :
  lookup k (update k v items) = Some v.
Proof.
  induction items as [|[k0 v0] rest IH]; simpl.
  - rewrite str_eqb_refl. reflexivity.
  - destruct (str_eqb k0 k) eqn:E; simpl.
    + rewrite str_eqb_refl. reflexivity.
    + rewrite E. exact IH.
Qed.

Lemma absent_keys_nil (items : list (str * value)) :
  absent_keys items = [] <->
  (exists h p u d,
      lookup (py "host") items = Some h /\ lookup (py "port") items = Some p
      /\ lookup (py "username") items = Some u
      /\ lookup (py "devices") items = Some d).
Proof.
  unfold absent_keys, required_fields. cbn [filter]. split.
  - destruct (lookup (py "host") items) as [h|]; [|discriminate].
    destruct (lookup (py "port") items) as [p|]; [|discriminate].
    destruct (lookup (py "username") items) as [u|]; [|discriminate].
    destruct (lookup (py "devices") items) as [d|]; [|discriminate].
    intros _. exists h, p, u, d. auto.
  - intros (h & p & u & d & -> & -> & -> & ->). reflexivity.
Qed.

(** On a configuration object, [load_config] returns the object as it
    is exactly when [host], [port], [username] and [devices] are all
    among its keys, whatever other keys it has; the state is left as it
    was. *)
Theorem load_config_accepts (env : Env) (path : str) (st : state env)
  (items : list (str * value)) :
  file_at env path (world st) = Parsed (VDict items) ->
  ((exists h p u d,
       lookup (py "host") items = Some h /\ lookup (py "port") items = Some p
       /\ lookup (py "username") items = Some u
       /\ lookup (py "devices") items = Some d)
   <-> load_config env path st = (Ok (VDict items), st))
  /\ snd (load_config env path st) = st.
Proof.
  intros Hfile. split; [|reflexivity].
  rewrite <- absent_keys_nil. unfold load_config.
  rewrite Hfile, missing_fields_dict. fold (absent_keys items). cbn [rbind].
  destruct (absent_keys items); split; try reflexivity; discriminate.
Qed.

Lemma load_config_accepts_witness :
  load_config home (py "wakeup.json") (@State home [] [])
  = (Ok home_config, @State home [] []).
Proof.
  apply (proj1 (load_config_accepts home (py "wakeup.json")
                  (@State home [] [])
                  [(py "host", VStr (py "192.168.1.1"));
                   (py "port", VInt 49443);
                   (py "username", VStr (py "admin"));
                   (py "devices",
                    VDict [(py "mypc", VStr (py "AA:BB:CC:DD:EE:FF"))])]
                  eq_refl)).
  exists (VStr (py "192.168.1.1")), (VInt 49443), (VStr (py "admin")),
    (VDict [(py "mypc", VStr (py "AA:BB:CC:DD:EE:FF"))]).
  repeat split; reflexivity.
Defined.

Lemma load_config_ok_inv (env : Env) (path : str) (st st' : state env)
  (config : value) :
  load_config env path st = (Ok config, st') ->
  file_at env path (world st) = Parsed config /\ st' = st.
Proof.
  unfold load_config. destruct (file_at env path (world st)) as [|e|msg|v];
    try discriminate.
  destruct (missing_fields v required_fields) as [[|f l]|e]; cbn [rbind];
    try discriminate.
  intros H; injection H as -> ->. auto.
Qed.

(** A configuration object that [load_config] accepts always builds a
    client once [main] has stored the TLS flag in it: the constructor
    finds [host], [port] and [username], takes the stored flag as
    [verify_ssl], and derives both URLs from host and port. *)
Theorem client_from_loaded_config (env : Env) (path : str)
  (st st' : state env) (items : list (str * value)) (flag : bool) :
  load_config env path st = (Ok (VDict items), st') ->
  exists h p u,
    lookup (py "host") items = Some h /\ lookup (py "port") items = Some p
    /\ lookup (py "username") items = Some u
    /\ __init__ env (VDict (update (py "verify_ssl") (VBool flag) items))
       = Ok {| config := VDict (update (py "verify_ssl") (VBool flag) items);
               host := h; port := p; username := u;
               verify_ssl := VBool flag;
               url_login := py "https://" ++ format env h ++ py ":"
                              ++ format env p ++ py "/login_sid.lua";
               url_data := py "https://" ++ format env h ++ py ":"
                             ++ format env p ++ py "/data.lua" |}.
Proof.
  intros Hload.
  destruct (load_config_ok_inv env path st st' _ Hload) as (Hfile & ->).
  apply (load_config_accepts env path st items Hfile) in Hload.
  destruct Hload as (h & p & u & d & Hh & Hp & Hu & Hd).
  exists h, p, u. repeat split; try assumption.
  unfold __init__. cbn [getitem get].
  rewrite !lookup_update_other by discriminate.
  rewrite Hh, Hp, Hu, lookup_update_same. reflexivity.
Qed.

Lemma client_from_loaded_config_witness :
  exists self,
    __init__ home
      (VDict (update (py "verify_ssl") (VBool false)
                [(py "host", VStr (py "192.168.1.1"));
                 (py "port", VInt 49443);
                 (py "username", VStr (py "admin"));
                 (py "devices",
                  VDict [(py "mypc", VStr (py "AA:BB:CC:DD:EE:FF"))])]))
    = Ok self
    /\ url_data self = py "https://192.168.1.1:49443/data.lua"
    /\ verify_ssl self = VBool false.
Proof.
  destruct (client_from_loaded_config home (py "wakeup.json")
              (@State home [] []) (@State home [] [])
              [(py "host", VStr (py "192.168.1.1")); (py "port", VInt 49443);
               (py "username", VStr (py "admin"));
               (py "devices",
                VDict [(py "mypc", VStr (py "AA:BB:CC:DD:EE:FF"))])]
              false eq_refl)
    as (h & p & u & Hh & Hp & Hu & Hinit).
  injection Hh as <-. injection Hp as <-. injection Hu as <-.
  eexists. split; [exact Hinit|]. split; reflexivity.
Defined.

(** ** The command line run *)

Lemma main_unfold (env : Env) (args : arguments) (st : state env) :
  main env args st
  = match main_body env args st with
    | (Ok r, st') => (Ok r, st')
    | (Raise e, st') => (handle e, st')
    end.
Proof. reflexivity. Qed.

Lemma main_trace (env : Env) (args : arguments) (st : state env) :
  snd (main env args st) = snd (main_body env args st).
Proof.
  rewrite main_unfold. destruct (main_body env args st) as [[r|e] st'];
    reflexivity.
Qed.

Lemma emits_bind_lift {env : Env} {A B} (P : event -> Prop) (r : result A)
  (k : A -> M env B) :
  (forall a, r = Ok a -> emits P (k a)) -> emits P (bind (lift r) k).
Proof.
  intros Hk st. unfold bind, lift. destruct r as [a|e].
  - apply Hk. reflexivity.
  - exists []. simpl. rewrite app_nil_r. auto.
Qed.

Lemma emits_load_config (env : Env) (P : event -> Prop) (path : str) :
  emits P (load_config env path).
Proof. intros st. exists []. simpl. rewrite app_nil_r. auto. Qed.

Lemma emits_print (env : Env) (P : event -> Prop) (line : str) :
  emits P (print env line).
Proof.
  intros st. exists []. unfold print.
  destruct (stdout env line (world st)); simpl; rewrite app_nil_r; auto.
Qed.

Lemma print_ok_inv (env : Env) (line : str) (st st' : state env) (u : unit) :
  print env line st = (Ok u, st') -> st' = st.
Proof.
  unfold print. destruct (stdout env line (world st)); [discriminate|].
  intros H; injection H as _ ->. reflexivity.
Qed.

Lemma init_verify_ssl (env : Env) (items : list (str * value))
  (self : FritzBoxClient) :
  __init__ env (VDict items) = Ok self ->
  verify_ssl self
  = match lookup (py "verify_ssl") items with
    | Some v => v
    | None => VBool true
    end.
Proof.
  unfold __init__.
  destruct (getitem (VDict items) (py "host")); [|discriminate].
  destruct (getitem (VDict items) (py "port")); [|discriminate].
  destruct (getitem (VDict items) (py "username")); [|discriminate].
  cbn [rbind get].
  destruct (lookup (py "verify_ssl") items); intros H; injection H as <-;
    reflexivity.
Qed.

(** Every request of a run carries [verify] set to the negation of
    the [--ssl-no-verify] flag, whatever [verify_ssl] the configuration
    file itself holds. *)
Theorem main_verify_flag (env : Env) (args : arguments) :
  emits (verified (VBool (negb (arg_ssl_no_verify args)))) (main env args).
Proof.
  assert (H : emits (verified (VBool (negb (arg_ssl_no_verify args))))
                (main_body env args)).
  { unfold main_body.
    apply emits_bind; [apply emits_load_config|]. intros config.
    apply emits_bind_lift. intros config' Hset.
    apply emits_bind; [apply emits_lift|]. intros target_mac.
    apply emits_bind; [apply emits_lift|]. intros h.
    apply emits_bind; [apply emits_print|]. intros _.
    apply emits_bind_lift. intros client Hinit.
    assert (Hv : verify_ssl client = VBool (negb (arg_ssl_no_verify args))).
    { destruct config; try discriminate. cbn [setitem] in Hset.
      injection Hset as <-.
      rewrite (init_verify_ssl env _ client Hinit), lookup_update_same.
      reflexivity. }
    assert (HP : forall q, req_verify q = verify_ssl client ->
                           verified (VBool (negb (arg_ssl_no_verify args)))
                             (Http q)).
    { intros q Hq. simpl. congruence. }
    apply emits_bind;
      [apply emits_authenticate; [exact HP | intros; exact I]|].
    intros sid. apply emits_bind; [apply emits_print|]. intros _.
    apply emits_bind; [apply emits_get_device_uid; exact HP|].
    intros uid. apply emits_bind; [apply emits_print|]. intros _.
    apply emits_bind; [apply emits_send_wakeup; exact HP|].
    intros b. apply emits_bind; [apply emits_print|]. intros _.
    apply emits_ret. }
  intros st. rewrite main_trace. apply H.
Qed.

(** A run whose configuration cannot be used ends with exit code 1
    and has touched neither network nor terminal: a missing file is
    reported as a config error, malformed JSON as a configuration error,
    and a top-level value that is not an object fails either in the key
    check or when the TLS flag is stored. *)
Theorem main_bad_config (env : Env) (args : arguments) (st : state env) :
  (file_at env (arg_config args) (world st) = Absent ->
   main env args st
   = (Ok (ConfigError
            (FileNotFoundError (py "Config file not found: "
                                  ++ arg_config args))), st))
  /\ (forall msg,
         file_at env (arg_config args) (world st) = Malformed msg ->
         main env args st
         = (Ok (ConfigurationError
                  (ValueError (py "Invalid JSON in config file: " ++ msg))),
            st))
  /\ (forall v,
         file_at env (arg_config args) (world st) = Parsed v ->
         (forall items, v <> VDict items) ->
         exists failure,
           main env args st = (Ok failure, st) /\ exit_code failure = 1%Z).
Proof.
  split; [|split].
  - intros H. unfold main, bind at 1, load_config. rewrite H. reflexivity.
  - intros msg H. unfold main, bind at 1, load_config. rewrite H.
    reflexivity.
  - intros v H Hv. unfold main, bind at 1, load_config. rewrite H.
    destruct v as [| b | z | bits | s | l | items];
      try (eexists; split; reflexivity).
    + unfold required_fields. cbn [missing_fields contains rbind].
      match goal with
      | |- context [match ?m with [] => _ | _ :: _ => _ end] =>
          destruct m
      end; eexists; split; reflexivity.
    + unfold required_fields. cbn [missing_fields contains rbind].
      match goal with
      | |- context [match ?m with [] => _ | _ :: _ => _ end] =>
          destruct m
      end; eexists; split; reflexivity.
    + exfalso. apply (Hv items). reflexivity.
Qed.

Lemma main_bad_config_witness :
  main lab (Args (py "mypc") (py "wakeup.json") false) (start [])
  = (Ok (ConfigError
           (FileNotFoundError (py "Config file not found: wakeup.json"))),
     start []).
Proof.
  apply (proj1 (main_bad_config lab (Args (py "mypc") (py "wakeup.json") false)
                  (start []))).
  reflexivity.
Defined.

Lemma bind_ok_inv {env : Env} {A B} (m : M env A) (k : A -> M env B)
  (st st' : state env) (b : B) :
  bind m k st = (Ok b, st') ->
  exists a st1, m st = (Ok a, st1) /\ k a st1 = (Ok b, st').
Proof.
  unfold bind. destruct (m st) as [[a|e] st1]; [eauto | discriminate].
Qed.

Lemma lift_ok_inv {env : Env} {A} (r : result A) (st st' : state env)
  (a : A) :
  lift r st = (Ok a, st') -> r = Ok a /\ st' = st.
Proof. unfold lift. intros H; injection H as -> ->. auto. Qed.

Lemma handle_not_sent (e : exn) : handle e <> Ok Sent.
Proof. destruct e; discriminate. Qed.

Lemma send_ok_inv (env : Env) v url data verify (st st' : state env)
  (resp : option response) :
  send env v url data verify st = (Ok resp, st') ->
  exists r,
    resp = Some r
    /\ http env (Request v url data verify) (world st) = (Ok r, world st')
    /\ trace st' = trace st ++ [Http (Request v url data verify)].
Proof.
  unfold send. destruct (http env _ (world st)) as [[r|e] w'].
  - intros H; injection H as <- <-. exists r. auto.
  - destruct e; discriminate.
Qed.

Lemma wake_success_true (r : response) :
  wake_success (Some r) = Ok true -> wake_signal r = true.
Proof.
  rewrite wake_success_spec. destruct (well_shaped r).
  - intros H; injection H as ->. reflexivity.
  - destruct (json r); discriminate.
Qed.

(** What a returning [send_wakeup] has done. *)
Lemma send_wakeup_ok_inv (env : Env) (self : FritzBoxClient) (sid : str)
  (uid : value) (st st' : state env) (b : bool) :
  send_wakeup env self sid uid st = (Ok b, st') ->
  b = true
  /\ exists st1 page r,
      trace st1 = trace st ++ [probe_event self sid]
      /\ (page = py "edit_device" \/ page = py "edit_device2")
      /\ http env (Request POST (url_data self)
                     (Some (wake_payload sid uid page)) (verify_ssl self))
           (world st1) = (Ok r, world st')
      /\ wake_signal r = true
      /\ trace st' = trace st1 ++ [wake_event self sid uid page].
Proof.
  unfold send_wakeup. intros H.
  apply bind_ok_inv in H as (fw & st1 & Hfw & H).
  apply bind_ok_inv in H as (older & st1' & Hle & H).
  apply lift_ok_inv in Hle as [Hle ->].
  apply bind_ok_inv in H as (resp & st2 & Hreq & H).
  apply bind_ok_inv in H as (success & st2' & Hs & H).
  apply lift_ok_inv in Hs as [Hs ->].
  rewrite make_request_post in Hreq.
  apply send_ok_inv in Hreq as (r & -> & Hhttp & Ht).
  destruct success; simpl in H; [|discriminate].
  injection H as <- <-. split; [reflexivity|].
  exists st1, (if older then py "edit_device2" else py "edit_device"), r.
  pose proof (firmware_probe_trace env self sid st) as Hp.
  rewrite Hfw in Hp. simpl in Hp.
  split; [exact Hp|]. split; [destruct older; auto|].
  split; [destruct older; exact Hhttp|].
  split; [exact (wake_success_true r Hs)|].
  destruct older; exact Ht.
Qed.

Lemma main_body_sent (env : Env) (args : arguments) (st st' : state env)
  (r : report) :
  main_body env args st = (Ok r, st') -> r = Sent.
Proof.
  unfold main_body. intros H.
  do 12 (apply bind_ok_inv in H as (? & ? & _ & H)).
  injection H as <- _. reflexivity.
Qed.

(** A run reports success, and so exit code 0, only after the wake
    request went out as the last event of the run, following the firmware
    probe, and was answered with the success signal; it exits with 130
    only if the run was interrupted from the keyboard. *)
Theorem main_success_means_woken (env : Env) (args : arguments)
  (st st' : state env) (outcome : report) :
  main env args st = (Ok outcome, st') ->
  (exit_code outcome = 0%Z ->
   exists self sid uid page earlier r w,
     trace st'
     = trace st ++ earlier
         ++ [probe_event self sid; wake_event self sid uid page]
     /\ (page = py "edit_device" \/ page = py "edit_device2")
     /\ http env (Request POST (url_data self)
                    (Some (wake_payload sid uid page)) (verify_ssl self)) w
        = (Ok r, world st')
     /\ wake_signal r = true)
  /\ (exit_code outcome = 130%Z ->
      fst (main_body env args st) = Raise KeyboardInterrupt).
Proof.
  rewrite main_unfold. intros Hmain. split.
  - intros Hcode.
    assert (Hsent : outcome = Sent) by (destruct outcome; simpl in Hcode;
                                        congruence || discriminate).
    subst outcome.
    assert (Hbody : main_body env args st = (Ok Sent, st')).
    { destruct (main_body env args st) as [[r|e] st1].
      - exact Hmain.
      - injection Hmain as He _. destruct (handle_not_sent e He). }
    clear Hmain. unfold main_body in Hbody.
    apply bind_ok_inv in Hbody as (config & st0 & Hload & H).
    apply (load_config_ok_inv env) in Hload as [_ ->].
    apply bind_ok_inv in H as (config' & st0 & Hset & H).
    apply lift_ok_inv in Hset as [_ ->].
    apply bind_ok_inv in H as (mac & st0 & Hmac & H).
    apply lift_ok_inv in Hmac as [_ ->].
    apply bind_ok_inv in H as (h & st0 & Hhost & H).
    apply lift_ok_inv in Hhost as [_ ->].
    apply bind_ok_inv in H as (u1 & st0 & Hp1 & H).
    apply print_ok_inv in Hp1 as ->.
    apply bind_ok_inv in H as (client & st0 & Hinit & H).
    apply lift_ok_inv in Hinit as [_ ->].
    apply bind_ok_inv in H as (sid & st2 & Hauth & H).
    apply bind_ok_inv in H as (u2 & st2' & Hp2 & H).
    apply print_ok_inv in Hp2 as ->.
    apply bind_ok_inv in H as (uid & st3 & Huid & H).
    apply bind_ok_inv in H as (u3 & st3' & Hp3 & H).
    apply print_ok_inv in Hp3 as ->.
    apply bind_ok_inv in H as (b & st4 & Hwake & H).
    apply bind_ok_inv in H as (u4 & st4' & Hp4 & H).
    apply print_ok_inv in Hp4 as ->.
    injection H as <-.
    destruct (emits_authenticate env client (fun _ => True) None
                (fun _ _ => I) (fun _ _ => I) st) as (l1 & E1 & _).
    rewrite Hauth in E1. simpl in E1.
    destruct (emits_get_device_uid env client (fun _ => True)
                (fun _ _ => I) sid mac st2) as (l2 & E2 & _).
    rewrite Huid in E2. simpl in E2.
    apply send_wakeup_ok_inv in Hwake
      as (_ & st5 & page & r & Hp & Hpage & Hhttp & Hsig & Ht).
    exists client, sid, uid, page, (l1 ++ l2), r, (world st5).
    split; [|auto].
    rewrite Ht, Hp, E2, E1, <- !app_assoc. reflexivity.
  - intros Hcode.
    destruct (main_body env args st) as [[r|e] st1] eqn:Hb; simpl.
    + injection Hmain as <- _.
      rewrite (main_body_sent env args st st1 r Hb) in Hcode.
      discriminate.
    + injection Hmain as He _.
      destruct e; simpl in He; try discriminate;
        try (injection He as <-; simpl in Hcode; discriminate).
      reflexivity.
Qed.

Lemma main_success_means_woken_witness :
  exists self sid uid page earlier,
    trace (snd (main home (Args (py "mypc") (py "wakeup.json") false)
                  (@State home successful_run [])))
    = earlier ++ [probe_event self sid; wake_event self sid uid page].
Proof.
  destruct (main_success_means_woken home
              (Args (py "mypc") (py "wakeup.json") false)
              (@State home successful_run [])
              (snd (main home (Args (py "mypc") (py "wakeup.json") false)
                      (@State home successful_run [])))
              Sent) as [H _].
  - vm_compute. reflexivity.
  - destruct (H eq_refl)
      as (self & sid & uid & page & earlier & r & w & Ht & _).
    exists self, sid, uid, page, earlier. exact Ht.
Defined.

Lemma init_config (env : Env) (c : value) (self : FritzBoxClient) :
  __init__ env c = Ok self -> config self = c.
Proof.
  unfold __init__.
  destruct (getitem c (py "host")); [|discriminate].
  destruct (getitem c (py "port")); [|discriminate].
  destruct (getitem c (py "username")); [|discriminate].
  cbn [rbind]. destruct (get c (py "verify_ssl") (VBool true));
    [|discriminate].
  cbn [rbind]. intros H; injection H as <-. reflexivity.
Qed.

Lemma authenticate_configured (env : Env) (self : FritzBoxClient)
  (v : value) (st : state env) :
  get (config self) (py "password") VNone = Ok v ->
  truthy v = true ->
  authenticate env self None st = authenticate env self (Some v) st.
Proof.
  intros Hget Hv. unfold authenticate, login_exchange, bind, lift, ret.
  rewrite Hget, Hv. reflexivity.
Qed.

(** A run whose configuration object holds a truthy [password] never
    prompts: everything it adds to the trace is a request. *)
Theorem main_never_prompts (env : Env) (args : arguments) (st : state env)
  (items : list (str * value)) (v : value) :
  file_at env (arg_config args) (world st) = Parsed (VDict items) ->
  lookup (py "password") items = Some v ->
  truthy v = true ->
  exists l,
    trace (snd (main env args st)) = trace st ++ l /\ Forall silent l.
Proof.
  intros Hfile Hpw Hv. rewrite main_trace.
  assert (Hnone : exists l, trace st = trace st ++ l /\ Forall silent l)
    by (exists []; rewrite app_nil_r; auto).
  unfold main_body. unfold bind at 1.
  destruct (load_config env (arg_config args) st) as [[config|e] st0]
    eqn:Hload.
  2:{ assert (E : st0 = st)
        by (change st0 with (snd (Raise (A := value) e, st0));
            rewrite <- Hload; reflexivity).
      subst st0. exact Hnone. }
  destruct (load_config_ok_inv env _ _ _ _ Hload) as [Hfile' ->].
  rewrite Hfile in Hfile'. injection Hfile' as <-.
  unfold bind at 1, lift at 1. cbn [setitem].
  unfold bind at 1, lift at 1.
  destruct (validate_device _ (arg_device args)) as [mac|e];
    [|exact Hnone].
  unfold bind at 1, lift at 1.
  destruct (getitem _ (py "host")) as [h|e]; [|exact Hnone].
  unfold bind at 1, print at 1.
  destruct (stdout env _ (world st)); [exact Hnone|].
  unfold bind at 1, lift at 1.
  destruct (__init__ env _) as [client|e] eqn:Hinit; [|exact Hnone].
  assert (Hget : get (config client) (py "password") VNone = Ok v).
  { rewrite (init_config env _ client Hinit). cbn [get].
    rewrite lookup_update_other by discriminate. rewrite Hpw. reflexivity. }
  assert (HP : forall q : request,
             req_verify q = verify_ssl client -> silent (Http q))
    by (intros; exact I).
  apply emits_bind.
  - intros st1. rewrite (authenticate_configured env client v st1 Hget Hv).
    apply (emits_authenticate env client silent (Some v) HP). discriminate.
  - intros sid. apply emits_bind; [apply emits_print|]. intros _.
    apply emits_bind; [apply emits_get_device_uid; exact HP|].
    intros uid. apply emits_bind; [apply emits_print|]. intros _.
    apply emits_bind; [apply emits_send_wakeup; exact HP|].
    intros b. apply emits_bind; [apply emits_print|]. intros _.
    apply emits_ret.
Qed.

Lemma main_never_prompts_witness :
  exists l,
    trace (snd (main unattended (Args (py "mypc") (py "wakeup.json") true)
                  (@State unattended successful_run [])))
    = [] ++ l
    /\ Forall silent l.
Proof.
  apply (main_never_prompts unattended
           (Args (py "mypc") (py "wakeup.json") true)
           (@State unattended successful_run [])
           unattended_items (VStr (py "hunter2")));
    reflexivity.
Defined.

Lemma firmware_version_token_witness :
  py "7.57" <> [] /\ no_space (py "7.57") = true.
Proof.
  apply (proj2 (proj2 (firmware_version_token lab home_client a_sid
                         (start [Ok (overview (py "7.57 (Labor)"))])))).
  reflexivity.
Defined.

Lemma send_wakeup_requests_witness :
  trace (snd (send_wakeup lab home_client a_sid a_uid
                (start [Ok (overview (py "7.57")); Ok (wake_reply (py "ok"))])))
  <> [] ++ [probe_event home_client a_sid].
Proof.
  apply (proj2 (send_wakeup_requests lab home_client a_sid a_uid
                  (start [Ok (overview (py "7.57"));
                          Ok (wake_reply (py "ok"))])) true).
  reflexivity.
Defined.

(** ** Requests and the session *)






(** On the scripted run that wakes [mypc], the three [POST]s carry
    the id the router issued. *)
Example main_posts_on_success :
  filter (fun e => match e with
                   | Http q => match req_verb q with POST => true | GET => false end
                   | Prompt _ => false
                   end)
    (trace (snd (main home (Args (py "mypc") (py "wakeup.json") false)
                   (@State home successful_run []))))
  = [Http (Request POST (py "https://192.168.1.1:49443/data.lua")
             (Some (netdev_payload a_sid)) (VBool true));
     Http (Request POST (py "https://192.168.1.1:49443/data.lua")
             (Some (overview_payload a_sid)) (VBool true));
     Http (Request POST (py "https://192.168.1.1:49443/data.lua")
             (Some (wake_payload a_sid (VStr (py "landevice4711"))
                      (py "edit_device"))) (VBool true))].
Proof. vm_compute. reflexivity. Qed.
